(** * Exercise tracker: the request handlers of [server.js]

    A shallow embedding of the Express handlers of [server.js] and of the
    Mongoose operations they call, over an explicit store of [User]
    documents, followed by the properties of the REST contract.

    Conventions of the embedding:
    - the [users] collection is the list of its documents in natural
      (insertion) order; [findOne] and [findById] return the first match;
    - what a handler draws from its environment is an argument of its model:
      the identifier [shortid.generate] returns and the time [new Date()]
      reads;
    - JavaScript numbers are modelled by the integers ([Z]); a [Date] is its
      time value in milliseconds since the epoch, [None] standing for
      [Invalid Date];
    - a handler either sends a response or passes an error to [next]; an
      exception raised in a [try] block is the error passed to [next] by the
      [catch] clause. *)

From Stdlib Require Import ZArith List String Ascii Bool Lia.
From Stdlib Require Import DecimalString.
Import ListNotations.

Local Open Scope string_scope.
Local Open Scope list_scope.
Local Open Scope Z_scope.

Set Warnings "-register-all".

(* ================================================================= *)
(** ** JavaScript values and JSON *)

(** The values the handlers put into a response body. *)
Inductive JSValue : Type :=
| JUndefined
| JNull
| JNum (n : Z)
| JStr (s : string)
| JArr (items : list JSValue)
| JObj (props : list (string * JSValue)).

(** [res.json(v)] writes [JSON.stringify(v)]: a property whose value is
    [undefined] is left out of its object, and an [undefined] array item is
    written [null]. [toJSON v] is the document that is written. *)
Fixpoint toJSON (v : JSValue) : JSValue :=
  match v with
  | JArr items =>
      JArr (map (fun x => match x with
                          | JUndefined => JNull
                          | _ => toJSON x
                          end) items)
  | JObj props =>
      JObj ((fix own (ps : list (string * JSValue)) : list (string * JSValue) :=
               match ps with
               | [] => []
               | (_, JUndefined) :: rest => own rest
               | (k, x) :: rest => (k, toJSON x) :: own rest
               end) props)
  | _ => v
  end.

(** The keys of an object, in enumeration order. *)
Definition keysOf (v : JSValue) : list string :=
  match v with
  | JObj props => map fst props
  | _ => []
  end.

Definition optStr (o : option string) : JSValue :=
  match o with Some s => JStr s | None => JUndefined end.

Definition optNum (o : option Z) : JSValue :=
  match o with Some n => JNum n | None => JUndefined end.

(** A JavaScript number as far as the handlers meet one: an integer or
    [NaN]. *)
Inductive Number : Type :=
| NaN
| Num (n : Z).

(** Truthiness of a string that may be [undefined]: only a non-empty string
    is truthy. *)
Definition truthyStr (o : option string) : bool :=
  match o with
  | Some (String _ _) => true
  | _ => false
  end.

(** Truthiness of a number that may be [null]: [null], [NaN] and [0] are
    falsy. *)
Definition truthyNum (o : option Number) : bool :=
  match o with
  | Some (Num n) => negb (n =? 0)
  | _ => false
  end.

(* ----------------------------------------------------------------- *)
(** *** [parseInt] *)

Definition isWhiteSpace (c : ascii) : bool :=
  let n := Z.of_nat (nat_of_ascii c) in
  ((9 <=? n) && (n <=? 13)) || (n =? 32).

Fixpoint trimStart (s : string) : string :=
  match s with
  | String c rest => if isWhiteSpace c then trimStart rest else s
  | EmptyString => s
  end.

Definition digitValue (c : ascii) : option Z :=
  let n := Z.of_nat (nat_of_ascii c) in
  if (48 <=? n) && (n <=? 57) then Some (n - 48)
  else if (97 <=? n) && (n <=? 122) then Some (n - 87)
  else if (65 <=? n) && (n <=? 90) then Some (n - 55)
  else None.

(** The value of the longest prefix of [s] made of digits of [radix], read
    after the digits accumulated in [acc]; [None] when there is no digit. *)
Fixpoint digitsPrefix (radix : Z) (s : string) (acc : option Z) : option Z :=
  match s with
  | EmptyString => acc
  | String c rest =>
      match digitValue c with
      | Some d =>
          if d <? radix
          then digitsPrefix radix rest
                 (Some (radix * match acc with Some a => a | None => 0 end + d))
          else acc
      | None => acc
      end
  end.

(** [parseInt(s)] with no radix argument: leading white space is skipped, a
    sign is read, a [0x] or [0X] prefix selects radix 16, and the longest
    prefix of digits is the value; no digit gives [NaN]. The value is kept
    exact (the handler only compares it with an array length, which the
    rounding of large values to a double does not change). *)
Definition parseInt (s : string) : Number :=
  let s1 := trimStart s in
  let '(sign, s2) :=
    match s1 with
    | String "-" rest => (-1, rest)
    | String "+" rest => (1, rest)
    | _ => (1, s1)
    end in
  let '(radix, s3) :=
    match s2 with
    | String "0" (String "x" rest) => (16, rest)
    | String "0" (String "X" rest) => (16, rest)
    | _ => (10, s2)
    end in
  match digitsPrefix radix s3 None with
  | Some n => Num (sign * n)
  | None => NaN
  end.

(* ================================================================= *)
(** ** Errors, responses and the error middleware *)

(** One entry of a Mongoose [ValidationError]'s [errors] object. *)
Record ValidatorError : Type := mkValidatorError {
  ve_message : option string
}.

(** An error object, by the three properties the middleware reads.
    [errors = None] is an error without that property; [Some l] lists the
    entries of the [errors] object in the order of [Object.keys]. *)
Record JSError : Type := mkError {
  errors : option (list (string * ValidatorError));
  status : option Z;
  message : option string
}.

Definition TypeError (msg : string) : JSError :=
  mkError None None (Some msg).

Definition RangeError (msg : string) : JSError :=
  mkError None None (Some msg).

Inductive ContentType : Type :=
| application_json
| text_plain
| text_html
| no_content_type.

Inductive Body : Type :=
| BJson (document : JSValue)
| BText (text : option string)
| BErrorPage (err : JSError).

Record Response : Type := mkResponse {
  statusCode : Z;
  contentType : ContentType;
  body : Body
}.

(** What a handler or middleware does with a request. *)
Inductive Outcome : Type :=
| Sent (r : Response)
| Next (err : JSError).

(** [res.status(code).json(v)] *)
Definition status_json (code : Z) (v : JSValue) : Outcome :=
  Sent (mkResponse code application_json (BJson (toJSON v))).

(** [res.status(code).type("txt").send(text)], for a request that is
    neither a [HEAD] nor a conditional [GET]. Writing the head of a response
    whose status is not between 100 and 999 throws a [RangeError]. [send]
    removes the body and the [Content-Type] of a 204 and of a 304, and sends
    an empty body with a 205; no body is written after a 1xx status.
    [BText None] is a response without body. *)
Definition status_txt_send (code : Z) (text : option string) : Outcome :=
  if (code <? 100) || (999 <? code)
  then Next (RangeError "Invalid status code")
  else if (code =? 204) || (code =? 304)
  then Sent (mkResponse code no_content_type (BText None))
  else if (code <? 200) || (code =? 205)
  then Sent (mkResponse code text_plain (BText None))
  else Sent (mkResponse code text_plain (BText text)).

(** A status with which [send] sends the body it is given. *)
Definition carriesBody (code : Z) : bool :=
  (200 <=? code) && (code <=? 999)
  && negb ((code =? 204) || (code =? 205) || (code =? 304)).

(** Truthiness of a value. *)
Definition truthy (v : JSValue) : bool :=
  match v with
  | JUndefined | JNull => false
  | JNum n => negb (n =? 0)
  | JStr s => negb (String.eqb s "")
  | JArr _ | JObj _ => true
  end.

(** The "not found" middleware (lines 58-61), on [req.body] and
    [req.params]; [None] is [next()], [Some err] is [next(err)]. *)
Definition notFoundMiddleware (body params : JSValue) : option JSError :=
  if truthy body || truthy params then None
  else Some (mkError None (Some 404) (Some "not found")).

(** [err.errors[key]] *)
Fixpoint getOwn (key : string) (l : list (string * ValidatorError))
  : option ValidatorError :=
  match l with
  | [] => None
  | (k, v) :: rest => if String.eqb k key then Some v else getOwn key rest
  end.

(** The error-handling middleware (lines 64-82). *)
Definition errorMiddleware (err : JSError) : Outcome :=
  match errors err with
  | Some errs =>
      (* mongoose validation error *)
      let errCode := 400 in
      let keys := map fst errs in
      match match keys with
            | k0 :: _ => getOwn k0 errs
            | [] => None
            end with
      | Some first => status_txt_send errCode (ve_message first)
      | None => Next (TypeError "Cannot read property 'message' of undefined")
      end
  | None =>
      (* generic or custom error *)
      let errCode :=
        match status err with
        | Some s => if s =? 0 then 500 else s
        | None => 500
        end in
      let errMessage :=
        if truthyStr (message err) then message err
        else Some "Internal Server Error" in
      status_txt_send errCode errMessage
  end.

(** Express's default handler, which answers an error no error middleware
    took: the error's [status] when it is a 4xx or 5xx code, else 500, with
    an HTML page describing the error. *)
Definition finalhandler (err : JSError) : Response :=
  let code :=
    match status err with
    | Some s => if (400 <=? s) && (s <? 600) then s else 500
    | None => 500
    end in
  mkResponse code text_html (BErrorPage err).

(* ================================================================= *)
(** ** What the host provides *)

(** The two operations of [Date] whose result depends on the engine and on
    the time zone of the server. *)
Class Host : Type := {
  (** [d.toDateString()] for the valid [Date] of time value [t], for
      instance ["Mon Jan 01 2024"] *)
  toDateString : Z -> string;
  (** [new Date(s)] for a string [s]: its time value, [None] for
      [Invalid Date] *)
  Date_new : string -> option Z
}.

(* ================================================================= *)
(** ** Documents and the store *)

(** A document of [exerciseSchema]. A path that Mongoose could not cast, or
    that was never given, is [undefined]: [None]. *)
Record Exercise : Type := mkExercise {
  ex_id : string;
  description : option string;
  duration : option Z;
  date : option Z
}.

(** A stored document of [userSchema]. *)
Record User : Type := mkUser {
  _id : string;
  name : string;
  count : Z;
  exercises : list Exercise
}.

(** The [users] collection, in natural order. *)
Definition DB : Type := list User.

(** [new Exercise({description, duration, date})], [date] being a [Date]
    object. The [_id] default calls [shortid.generate], whose result is
    [generated]. Casting an invalid [Date] fails: the failure is recorded in
    the document and the path stays [undefined]. *)
Definition new_Exercise (generated : string) (description : option string)
  (duration : option Z) (date : option Z) : Exercise :=
  mkExercise generated description duration date.

(** [new User({name})], before it is saved: [count] and [exercises] take
    their defaults when the document is built. *)
Record NewUser : Type := mkNewUser {
  new_id : string;
  new_name : option string
}.

Definition new_User (generated : string) (name : option string) : NewUser :=
  mkNewUser generated name.

(** [User.findOne({ name })]. Every stored document has a string [name], so
    an [undefined] name matches none. *)
Definition findOne (name_ : option string) (db : DB) : option User :=
  match name_ with
  | Some n => find (fun u => String.eqb (name u) n) db
  | None => None
  end.

(** [User.findById(id)] *)
Definition findById (id : string) (db : DB) : option User :=
  find (fun u => String.eqb (_id u) id) db.

(** [User.find({})] *)
Definition find_all (db : DB) : list User := db.

(** The error [save] rejects with when the [required] validator of [name]
    fails. *)
Definition requiredError (path : string) : JSError :=
  let msg := String.append "Path `" (String.append path "` is required.") in
  mkError (Some [(path, mkValidatorError (Some msg))]) None
          (Some (String.append "User validation failed: "
                   (String.append path (String.append ": " msg)))).

(** The error of the unique index on [_id]. *)
Definition duplicateKeyError : JSError :=
  mkError None None (Some "E11000 duplicate key error").

(** [newUser.save()]: the document is validated ([name] is required, and a
    required string is not empty), then inserted; the insertion fails when
    the [_id] is already taken. *)
Definition save (newUser : NewUser) (db : DB) : (DB * User) + JSError :=
  match new_name newUser with
  | Some (String _ _ as n) =>
      if existsb (fun u => String.eqb (_id u) (new_id newUser)) db
      then inr duplicateKeyError
      else let user := mkUser (new_id newUser) n 0 [] in
           inl (db ++ [user], user)
  | _ => inr (requiredError "name")
  end.

(** The update [{ $push: { exercises: exercise }, $inc: { count: 1 } }],
    applied to one document in a single operation. *)
Definition push_inc (exercise : Exercise) (u : User) : User :=
  mkUser (_id u) (name u) (count u + 1) (exercises u ++ [exercise]).

(** [User.findByIdAndUpdate(id, update, { new: true })]: the first document
    of that [_id] is replaced by its update, which is returned; with no such
    document nothing changes and the result is [null]. Schema validators do
    not run on an update (the call does not set [runValidators]). *)
Fixpoint findByIdAndUpdate (id : string) (update : User -> User) (db : DB)
  : DB * option User :=
  match db with
  | [] => ([], None)
  | u :: rest =>
      if String.eqb (_id u) id
      then (update u :: rest, Some (update u))
      else let '(rest', found) := findByIdAndUpdate id update rest in
           (u :: rest', found)
  end.

(* ================================================================= *)
(** ** The handlers *)

(** [req.body] of the exercise form. *)
Record ExerciseBody : Type := mkBody {
  body_description : option string;
  body_duration : option Z;
  body_date : option string
}.

(** [req.query] of the log request. *)
Record LogQuery : Type := mkQuery {
  query_from : option string;
  query_to : option string;
  query_limit : option string
}.

(** An element of [userClone.log]. *)
Record LogEntry : Type := mkLogEntry {
  log_description : option string;
  log_duration : option Z;
  log_date : string
}.

Definition entryValue (e : LogEntry) : JSValue :=
  JObj [("description", optStr (log_description e));
        ("duration", optNum (log_duration e));
        ("date", JStr (log_date e))].

(** [createUserHandler] (lines 87-105); [generated] is what
    [shortid.generate] returns if a document is built. *)
Definition createUserHandler (generated : string) (username : option string)
  (db : DB) : DB * Outcome :=
  match findOne username db with
  | Some user =>
      (db, status_json 200 (JObj [("_id", JStr (_id user));
                                  ("username", JStr (name user));
                                  ("count", JNum (count user))]))
  | None =>
      let newUser := new_User generated username in
      match save newUser db with
      | inl (db', saved) =>
          (db', status_json 201 (JObj [("username", JStr (name saved));
                                       ("_id", JStr (_id saved))]))
      | inr err => (db, Next err)
      end
  end.

(** [q ? new Date(q) : otherwise] *)
Definition dateOr `{Host} (q : option string) (otherwise : option Z)
  : option Z :=
  match q with
  | Some (String _ _ as s) => Date_new s
  | _ => otherwise
  end.

(** [addExerciseHandler] (lines 110-136); [generated] is the [_id] of the
    new exercise and [now] the time [new Date()] reads. *)
Definition addExerciseHandler `{Host} (generated : string) (now : Z)
  (id : string) (body : ExerciseBody) (db : DB) : DB * Outcome :=
  let exercise :=
    new_Exercise generated (body_description body) (body_duration body)
                 (dateOr (body_date body) (Some now)) in
  match findByIdAndUpdate id (push_inc exercise) db with
  | (db', None) =>
      (db', Next (TypeError "Cannot read property 'name' of null"))
  | (db', Some user) =>
      match date exercise with
      | None =>
          (db', Next (TypeError
                        "Cannot read property 'toDateString' of undefined"))
      | Some d =>
          (db', status_json 201
                  (JObj [("username", JStr (name user));
                         ("description", optStr (description exercise));
                         ("duration", optNum (duration exercise));
                         ("_id", JStr (_id user));
                         ("date", JStr (toDateString d))]))
      end
  end.

(** [q ? new Date(q) : null]; the result [Some None] is an [Invalid Date]
    object, which is truthy. *)
Definition dateOrNull `{Host} (q : option string) : option (option Z) :=
  match q with
  | Some (String _ _ as s) => Some (Date_new s)
  | _ => None
  end.

(** [q ? parseInt(q) : null] *)
Definition intOrNull (q : option string) : option Number :=
  match q with
  | Some (String _ _ as s) => Some (parseInt s)
  | _ => None
  end.

(** [a < b] on two [Date] objects: false when either is invalid. *)
Definition dateLt (a b : option Z) : bool :=
  match a, b with
  | Some x, Some y => x <? y
  | _, _ => false
  end.

(** The [map] of lines 156-160; [None] when [ex.date.toDateString()] throws
    because an exercise has no date. *)
Fixpoint formatLog `{Host} (exs : list Exercise) : option (list LogEntry) :=
  match exs with
  | [] => Some []
  | ex :: rest =>
      match date ex with
      | None => None
      | Some d =>
          match formatLog rest with
          | None => None
          | Some entries =>
              Some (mkLogEntry (description ex) (duration ex)
                               (toDateString d) :: entries)
          end
      end
  end.

(** The callback of the [filter] of lines 164-169. *)
Definition inRange `{Host} (from to : option (option Z)) (ex : LogEntry)
  : bool :=
  let exDate := Date_new (log_date ex) in
  if match from with Some f => dateLt exDate f | None => false end
  then false
  else if match to with Some t => dateLt t exDate | None => false end
  then false
  else true.

(** [limit < length], false when [limit] is [NaN]; [null] would read as 0,
    but the test is guarded by the truthiness of [limit]. *)
Definition numLt (limit : option Number) (length : Z) : bool :=
  match limit with
  | Some (Num n) => n <? length
  | Some NaN => false
  | None => 0 <? length
  end.

(** [log.length = limit], for a [limit] below the length: the array is cut
    to its first [limit] elements ([null] is the length 0); a negative
    length or [NaN] throws a [RangeError]. *)
Definition setLength (limit : option Number) (log : list LogEntry)
  : list LogEntry + JSError :=
  match limit with
  | Some (Num n) =>
      if n <? 0 then inr (RangeError "Invalid array length")
      else inl (firstn (Z.to_nat n) log)
  | Some NaN => inr (RangeError "Invalid array length")
  | None => inl []
  end.

(** Lines 173-175: [if (limit && limit < log.length) log.length = limit]. *)
Definition applyLimit (limit : option Number) (log : list LogEntry)
  : list LogEntry + JSError :=
  if truthyNum limit && numLt limit (Z.of_nat (List.length log))
  then setLength limit log
  else inl log.

(** [getUserHandler] (lines 141-187). *)
Definition getUserHandler `{Host} (id : string) (query : LogQuery) (db : DB)
  : Outcome :=
  let from := dateOrNull (query_from query) in
  let to := dateOrNull (query_to query) in
  let limit := intOrNull (query_limit query) in
  match findById id db with
  | None => Next (TypeError "Cannot read property 'toObject' of null")
  | Some userClone =>
      let reply (log : option (list LogEntry)) :=
        status_json 200
          (JObj [("_id", JStr (_id userClone));
                 ("username", JStr (name userClone));
                 ("count", JNum (Z.of_nat (List.length (exercises userClone))));
                 ("log", match log with
                         | Some entries => JArr (map entryValue entries)
                         | None => JUndefined
                         end)]) in
      match exercises userClone with
      | [] => reply None
      | _ :: _ =>
          match formatLog (exercises userClone) with
          | None =>
              Next (TypeError
                      "Cannot read property 'toDateString' of undefined")
          | Some log0 =>
              let log1 :=
                match from, to with
                | None, None => log0
                | _, _ => filter (inRange from to) log0
                end in
              match applyLimit limit log1 with
              | inl log2 => reply (Some log2)
              | inr err => Next err
              end
          end
      end
  end.

(** [getAllUsersHandlers] (lines 192-202). *)
Definition getAllUsersHandlers (db : DB) : Outcome :=
  let users := find_all db in
  status_json 200
    (JArr (map (fun user => JObj [("_id", JStr (_id user));
                                  ("username", JStr (name user))]) users)).

(* ================================================================= *)
(** ** The application *)

(** The routes are registered (lines 206-212) after the error-handling
    middleware (line 64). Express hands an error to the error middleware
    that follows the failing layer in the stack; a route handler has none
    after it, so the error it passes to [next] is answered by the default
    handler. The middleware of lines 58-61 passes every request on to the
    routes: [body-parser] has set [req.body] to an object, which is
    truthy. *)
Definition route (o : Outcome) : Response :=
  match o with
  | Sent r => r
  | Next err => finalhandler err
  end.

(** A request as one of the four route handlers receives it, its path
    matched and its body parsed, with what the handler will draw from the
    environment. *)
Inductive Request : Type :=
| POST_users (generated : string) (username : option string)
| POST_exercises (generated : string) (now : Z) (id : string)
    (body : ExerciseBody)
| GET_logs (id : string) (query : LogQuery)
| GET_users.

Definition app `{Host} (req : Request) (db : DB) : DB * Response :=
  match req with
  | POST_users generated username =>
      let '(db', o) := createUserHandler generated username db in
      (db', route o)
  | POST_exercises generated now id body =>
      let '(db', o) := addExerciseHandler generated now id body db in
      (db', route o)
  | GET_logs id query => (db, route (getUserHandler id query db))
  | GET_users => (db, route (getAllUsersHandlers db))
  end.

(** The store after a sequence of requests, served one after the other. *)
Fixpoint run `{Host} (reqs : list Request) (db : DB) : DB :=
  match reqs with
  | [] => db
  | req :: rest => run rest (fst (app req db))
  end.

(** The states of the store the application reaches from the empty
    collection when it serves its requests one after the other, each
    handler running to its end before the next starts. *)
Definition reachable `{Host} (db : DB) : Prop :=
  exists reqs, run reqs [] = db.

(** One call of the exercise form against user [id]. *)
Record AddCall : Type := mkCall {
  call_generated : string;
  call_now : Z;
  call_body : ExerciseBody
}.

(** The exercise a call builds (lines 111-115). *)
Definition exerciseOf `{Host} (c : AddCall) : Exercise :=
  new_Exercise (call_generated c) (body_description (call_body c))
               (body_duration (call_body c))
               (dateOr (body_date (call_body c)) (Some (call_now c))).

(** A sequence of calls of the exercise form against the same user: the
    final store and the outcome of each call, in call order. *)
Fixpoint addAll `{Host} (id : string) (calls : list AddCall) (db : DB)
  : DB * list Outcome :=
  match calls with
  | [] => (db, [])
  | c :: rest =>
      let '(db1, o) :=
        addExerciseHandler (call_generated c) (call_now c) id (call_body c)
                           db in
      let '(db2, os) := addAll id rest db1 in
      (db2, o :: os)
  end.

Definition succeeded (code : Z) (o : Outcome) : Prop :=
  match o with
  | Sent r => statusCode r = code
  | Next _ => False
  end.

(** The date of the exercise a body describes, at a call made at time
    [now]: the date [new Date] reads from the body's [date], or the time of
    the call when the body has no date or an empty one. *)
Definition dateOfBody `{Host} (body : ExerciseBody) (now t : Z) : Prop :=
  match body_date body with
  | None => t = now
  | Some s => if String.eqb s "" then t = now else Date_new s = Some t
  end.

(** The invariant of the data model. *)
Definition count_matches (u : User) : Prop :=
  count u = Z.of_nat (List.length (exercises u)).

(** What every reachable store satisfies: no two users share a name or an
    [_id], and the count of each user is the number of its exercises. *)
Record store_ok (db : DB) : Prop := mkStoreOk {
  names_unique : NoDup (map name db);
  ids_unique : NoDup (map _id db);
  counts_match : Forall count_matches db
}.

(* ================================================================= *)
(** ** The log, as the specification words it *)

(** A bound of the date range, when the query gives one: the parameter is
    there, is not empty, and is a date. *)
Definition boundOf `{Host} (q : option string) : option Z :=
  match q with
  | Some (String _ _ as s) => Date_new s
  | _ => None
  end.

(** A limit, when the query gives one: the parameter is there and reads as
    a positive integer. *)
Definition limitOf (q : option string) : option Z :=
  match q with
  | Some (String _ _ as s) =>
      match parseInt s with
      | Num n => if 0 <? n then Some n else None
      | NaN => None
      end
  | _ => None
  end.

(** [from <= d <= to], each bound applied only when present. *)
Definition withinBounds (from to : option Z) (d : Z) : bool :=
  match from with Some f => f <=? d | None => true end
  && match to with Some t => d <=? t | None => true end.

(** The exercise mapped to [{description, duration, date}], its date as a
    day string. *)
Definition isEntryOf `{Host} (ex : Exercise) (e : LogEntry) : Prop :=
  log_description e = description ex /\
  log_duration e = duration ex /\
  exists d, date ex = Some d /\ log_date e = toDateString d.

(** The date of a log entry is the day its string names. *)
Definition entryWithin `{Host} (from to : option Z) (e : LogEntry) : bool :=
  match Date_new (log_date e) with
  | Some d => withinBounds from to d
  | None => false
  end.

(** Of the mapped exercises, keep what lies within the bounds, then the
    first [limit] of them when there are more. *)
Definition spec_log `{Host} (mapped : list LogEntry)
  (from to limit : option Z) : list LogEntry :=
  let kept := filter (entryWithin from to) mapped in
  match limit with
  | Some n => if n <? Z.of_nat (List.length kept)
              then firstn (Z.to_nat n) kept
              else kept
  | None => kept
  end.

(** The host reads the date of the entry back. *)
Definition readable `{Host} (e : LogEntry) : Prop :=
  exists t, Date_new (log_date e) = Some t.

(** An exercise whose date is stored and whose day string the host reads
    back as a date. *)
Definition dated `{Host} (ex : Exercise) : Prop :=
  exists d t, date ex = Some d /\ Date_new (toDateString d) = Some t.





(* ================================================================= *)
(** ** A host to run the handlers on

    A server whose local time is [tz] minutes east of UTC, with the
    calendar of [Date]. Of the strings [new Date] accepts, this host reads
    the two the examples use: the ISO date [YYYY-MM-DD], which is midnight
    UTC, and the day string [Www Mmm DD YYYY] that [toDateString] writes,
    which is midnight local time. *)

Definition msPerDay : Z := 86400000.
Definition msPerMinute : Z := 60000.

(** The day number, counted from 1970-01-01, of a date of the proleptic
    Gregorian calendar. *)
Definition daysFromCivil (y m d : Z) : Z :=
  let y' := if m <=? 2 then y - 1 else y in
  let era := y' / 400 in
  let yoe := y' - era * 400 in
  let doy := (153 * (if 2 <? m then m - 3 else m + 9) + 2) / 5 + d - 1 in
  let doe := yoe * 365 + yoe / 4 - yoe / 100 + doy in
  era * 146097 + doe - 719468.

(** The year, month and day of a day number. *)
Definition civilFromDays (z : Z) : Z * Z * Z :=
  let z' := z + 719468 in
  let era := z' / 146097 in
  let doe := z' - era * 146097 in
  let yoe := (doe - doe / 1460 + doe / 36524 - doe / 146096) / 365 in
  let doy := doe - (365 * yoe + yoe / 4 - yoe / 100) in
  let mp := (5 * doy + 2) / 153 in
  let d := doy - (153 * mp + 2) / 5 + 1 in
  let m := if mp <? 10 then mp + 3 else mp - 9 in
  ((if m <=? 2 then yoe + era * 400 + 1 else yoe + era * 400), m, d).

Definition dayNames : list string :=
  ["Sun"; "Mon"; "Tue"; "Wed"; "Thu"; "Fri"; "Sat"].

Definition monthNames : list string :=
  ["Jan"; "Feb"; "Mar"; "Apr"; "May"; "Jun";
   "Jul"; "Aug"; "Sep"; "Oct"; "Nov"; "Dec"].

(** [s.padStart(width, "0")] *)
Fixpoint zeros (n : nat) : string :=
  match n with
  | O => ""
  | S k => String "0" (zeros k)
  end.

Definition padStart (width : nat) (s : string) : string :=
  String.append (zeros (width - String.length s)) s.

(** The decimal digits of a natural number. *)
Definition decimal (n : Z) : string :=
  NilZero.string_of_uint (N.to_uint (Z.to_N n)).

(** [toDateString] at [tz] minutes east of UTC. *)
Definition toDateStringAt (tz : Z) (t : Z) : string :=
  let day := (t + tz * msPerMinute) / msPerDay in
  let '(y, m, d) := civilFromDays day in
  let weekday := (day + 4) mod 7 in
  String.concat " "
    [nth (Z.to_nat weekday) dayNames "";
     nth (Z.to_nat (m - 1)) monthNames "";
     padStart 2 (decimal d);
     String.append (if y <? 0 then "-" else "") (padStart 4 (decimal (Z.abs y)))].

(** The number a string of decimal digits writes. *)
Fixpoint digitsValue (s : string) (acc : Z) : option Z :=
  match s with
  | EmptyString => Some acc
  | String c rest =>
      match digitValue c with
      | Some d => if d <? 10 then digitsValue rest (10 * acc + d) else None
      | None => None
      end
  end.

Definition number (s : string) : option Z :=
  match s with
  | EmptyString => None
  | _ => digitsValue s 0
  end.

(** The position of a name in a list of names, counted from 1. *)
Fixpoint indexOf (x : string) (names : list string) (i : Z) : option Z :=
  match names with
  | [] => None
  | n :: rest => if String.eqb n x then Some i else indexOf x rest (i + 1)
  end.

(** [YYYY-MM-DD]: midnight UTC of that day. *)
Definition parseIsoDate (s : string) : option Z :=
  if negb (Nat.eqb (String.length s) 10) then None else
  if negb (String.eqb (substring 4 1 s) "-" && String.eqb (substring 7 1 s) "-")
  then None else
  match number (substring 0 4 s), number (substring 5 2 s),
        number (substring 8 2 s) with
  | Some y, Some m, Some d =>
      if (1 <=? m) && (m <=? 12) && (1 <=? d) && (d <=? 31)
      then Some (daysFromCivil y m d * msPerDay)
      else None
  | _, _, _ => None
  end.

(** [Www Mmm DD YYYY]: midnight of that day, local time. *)
Definition parseDayString (tz : Z) (s : string) : option Z :=
  if negb (Nat.eqb (String.length s) 15) then None else
  if negb (String.eqb (substring 3 1 s) " " && String.eqb (substring 7 1 s) " "
           && String.eqb (substring 10 1 s) " ")
  then None else
  match indexOf (substring 0 3 s) dayNames 1,
        indexOf (substring 4 3 s) monthNames 1,
        number (substring 8 2 s), number (substring 11 4 s) with
  | Some _, Some m, Some d, Some y =>
      if (1 <=? d) && (d <=? 31) && (100 <=? y)
      then Some (daysFromCivil y m d * msPerDay - tz * msPerMinute)
      else None
  | _, _, _, _ => None
  end.

Definition DateAt (tz : Z) (s : string) : option Z :=
  match parseIsoDate s with
  | Some t => Some t
  | None => parseDayString tz s
  end.

(** The host [tz] minutes east of UTC. *)
Definition hostAt (tz : Z) : Host :=
  {| toDateString := toDateStringAt tz; Date_new := DateAt tz |}.

Definition utc : Host := hostAt 0.

(** The store of the examples: user ["ann"] with three exercises, dated
    2024-01-01, 2024-01-15 and 2024-02-01, on a server in UTC. *)
Definition threeExercises : list Request :=
  [POST_users "u1" (Some "ann");
   POST_exercises "e1" 1717243200000 "u1"
     (mkBody (Some "run") (Some 30) (Some "2024-01-01"));
   POST_exercises "e2" 1717243200000 "u1"
     (mkBody (Some "swim") (Some 45) (Some "2024-01-15"));
   POST_exercises "e3" 1717243200000 "u1"
     (mkBody (Some "row") (Some 20) (Some "2024-02-01"))].

Definition annStore : DB := @run utc threeExercises [].

Definition ann : User :=
  mkUser "u1" "ann" 3
    [mkExercise "e1" (Some "run") (Some 30) (Some 1704067200000);
     mkExercise "e2" (Some "swim") (Some 45) (Some 1705276800000);
     mkExercise "e3" (Some "row") (Some 20) (Some 1706745600000)].

Definition annLog : list LogEntry :=
  [mkLogEntry (Some "run") (Some 30) "Mon Jan 01 2024";
   mkLogEntry (Some "swim") (Some 45) "Mon Jan 15 2024";
   mkLogEntry (Some "row") (Some 20) "Thu Feb 01 2024"].



(** A user who has just signed up, and two calls of the exercise form, the
    second without a date. *)
Definition signUp : list Request := [POST_users "u7" (Some "bea")].

Definition twoCalls : list AddCall :=
  [mkCall "e1" 1717243200000 (mkBody (Some "run") (Some 30) (Some "2024-01-01"));
   mkCall "e2" 1717243200000 (mkBody (Some "swim") (Some 45) None)].

(** [l1] is [l2] with some elements left out, the others in their order. *)
Inductive subseq {A : Type} : list A -> list A -> Prop :=
| subseq_nil : subseq [] []
| subseq_skip x l1 l2 : subseq l1 l2 -> subseq l1 (x :: l2)
| subseq_keep x l1 l2 : subseq l1 l2 -> subseq (x :: l1) (x :: l2).

(** [u'] is [u] some exercises later: the same [_id] and name, the
    exercises of [u] followed by others, and the count raised by their
    number. *)
Definition extends (u u' : User) : Prop :=
  _id u' = _id u /\ name u' = name u /\
  exists more,
    exercises u' = exercises u ++ more
    /\ count u' = count u + Z.of_nat (List.length more).

(** The property [key] of a document, when its value is not [undefined]. *)
Definition given (key : string) (v : JSValue) : list (string * JSValue) :=
  match v with
  | JUndefined => []
  | _ => [(key, v)]
  end.

(** The two halves of [createUserHandler], on either side of the [await]
    of line 88: the lookup, and what the handler does with its result on
    the store as it is when the handler resumes. *)
Definition signup_lookup (username : option string) (db : DB) : option User :=
  findOne username db.

Definition signup_resume (generated : string) (username : option string)
  (user : option User) (db : DB) : DB * Outcome :=
  match user with
  | Some user =>
      (db, status_json 200 (JObj [("_id", JStr (_id user));
                                  ("username", JStr (name user));
                                  ("count", JNum (count user))]))
  | None =>
      let newUser := new_User generated username in
      match save newUser db with
      | inl (db', saved) =>
          (db', status_json 201 (JObj [("username", JStr (name saved));
                                       ("_id", JStr (_id saved))]))
      | inr err => (db, Next err)
      end
  end.

(** The query without parameters. *)
Definition noQuery : LogQuery := mkQuery None None None.

(** The document [res.json] writes for a log entry. *)
Definition entryJSON (e : LogEntry) : JSValue := toJSON (entryValue e).

(** The document of a log response: the user's id and name, the number of
    its exercises, and the log when there is one. *)
Definition logDocument (u : User) (log : option (list LogEntry)) : JSValue :=
  JObj ([("_id", JStr (_id u));
         ("username", JStr (name u));
         ("count", JNum (Z.of_nat (List.length (exercises u))))]
        ++ match log with
           | Some entries => [("log", JArr (map entryJSON entries))]
           | None => []
           end).

(** [doc[key]] *)
Definition getProp (key : string) (doc : JSValue) : option JSValue :=
  match doc with
  | JObj props =>
      match find (fun p => String.eqb (fst p) key) props with
      | Some p => Some (snd p)
      | None => None
      end
  | _ => None
  end.

(** The document of a user in the list of all users. *)
Definition userSummary (u : User) : JSValue :=
  JObj [("_id", JStr (_id u)); ("username", JStr (name u))].

Definition ok_json (code : Z) (doc : JSValue) : Outcome :=
  Sent (mkResponse code application_json (BJson doc)).

(* ================================================================= *)
(** ** The error middleware *)

Lemma getOwn_head key first rest :
  getOwn key ((key, first) :: rest) = Some first.
Proof. simpl. now rewrite String.eqb_refl. Qed.

Lemma status_txt_send_body (code : Z) (text : option string) :
  carriesBody code = true ->
  status_txt_send code text = Sent (mkResponse code text_plain (BText text)).
Proof.
  unfold carriesBody, status_txt_send. intros H.
  apply andb_prop in H as [H N]. apply andb_prop in H as [L U].
  apply Z.leb_le in L, U. apply negb_true_iff in N.
  apply orb_false_elim in N as [N E304]. apply orb_false_elim in N as [E204 E205].
  rewrite E204, E205, E304.
  destruct (Z.ltb_spec code 100); [lia|].
  destruct (Z.ltb_spec 999 code); [lia|].
  destruct (Z.ltb_spec code 200); [lia|]. reflexivity.
Qed.

(** C7. An error forwarded to the error middleware is answered in plain
    text. When it carries a collection of validation failures, the status
    is 400 and the body is the message of the first failure of the
    collection. Otherwise the status is the one attached to the error when
    there is one, else 500, and the body is the error's message when there
    is one, else "Internal Server Error", provided that status is one with
    which a body is sent: a status from 200 to 999 other than 204, 205 and
    304. The middleware tests both with [||]: a status is attached when it
    is not 0, a message is there when it is not the empty string. *)
Theorem error_middleware_response (err : JSError) :
  (forall key first rest,
      errors err = Some ((key, first) :: rest) ->
      errorMiddleware err =
        Sent (mkResponse 400 text_plain (BText (ve_message first)))) /\
  (errors err = None ->
   forall code,
     (status err = Some code /\ code <> 0)
     \/ ((status err = None \/ status err = Some 0) /\ code = 500) ->
     carriesBody code = true ->
     exists text,
       errorMiddleware err
       = Sent (mkResponse code text_plain (BText (Some text)))
       /\ (forall m, message err = Some m -> m <> "" -> text = m)
       /\ (message err = None \/ message err = Some "" ->
           text = "Internal Server Error")).
Proof.
  split.
  - intros key first rest E. unfold errorMiddleware. rewrite E.
    cbn [map fst]. now rewrite getOwn_head.
  - intros E code Hcode Hbody. unfold errorMiddleware. rewrite E.
    assert (C : match status err with
                | Some s => if s =? 0 then 500 else s
                | None => 500
                end = code).
    { destruct Hcode as [[Es Hs]|[[Es|Es] ->]]; rewrite Es;
        [now destruct (Z.eqb_spec code 0) | reflexivity | reflexivity]. }
    rewrite C.
    exists (match message err with
            | Some (String c m) => String c m
            | _ => "Internal Server Error"
            end).
    split; [|split].
    + destruct (message err) as [[|c m]|]; cbn [truthyStr];
        now apply status_txt_send_body.
    + intros m Em Hm. rewrite Em. now destruct m.
    + intros [Em|Em]; now rewrite Em.
Qed.

(** An error with one validation failure, and an error with a status
    attached. *)
Lemma error_middleware_response_witness :
  errorMiddleware (requiredError "name") =
    Sent (mkResponse 400 text_plain (BText (Some "Path `name` is required.")))
  /\ exists text,
       errorMiddleware (mkError None (Some 404) (Some "not found")) =
         Sent (mkResponse 404 text_plain (BText (Some text)))
       /\ text = "not found".
Proof.
  split.
  - exact (proj1 (error_middleware_response (requiredError "name"))
                 "name" (mkValidatorError (Some "Path `name` is required."))
                 [] eq_refl).
  - assert (Hcode : (status (mkError None (Some 404) (Some "not found"))
                     = Some 404 /\ 404 <> 0)
                    \/ ((status (mkError None (Some 404) (Some "not found"))
                         = None
                         \/ status (mkError None (Some 404) (Some "not found"))
                            = Some 0) /\ 404 = 500))
      by (left; split; [reflexivity | discriminate]).
    assert (Hbody : carriesBody 404 = true) by reflexivity.
    destruct (proj2 (error_middleware_response
                       (mkError None (Some 404) (Some "not found")))
                    eq_refl 404 Hcode Hbody)
      as (text & E & Hm & _).
    exists text. split; [exact E|].
    apply (Hm "not found"); [reflexivity | discriminate].
Defined.

(** With the status 204 attached the answer has neither the message nor a
    content type, and with the status 99 there is no answer: the
    middleware throws. *)
Lemma error_middleware_response_counterexample :
  errorMiddleware (mkError None (Some 204) (Some "gone"))
  <> Sent (mkResponse 204 text_plain (BText (Some "gone")))
  /\ errorMiddleware (mkError None (Some 204) (Some "gone"))
     = Sent (mkResponse 204 no_content_type (BText None))
  /\ errorMiddleware (mkError None (Some 99) (Some "odd"))
     = Next (RangeError "Invalid status code").
Proof.
  split; [|split]; [|reflexivity|reflexivity].
  intros H. discriminate H.
Qed.

(** An [errors] object without entries has no first failure to report:
    reading its message throws inside the middleware. *)
Example errorMiddleware_no_entry :
  errorMiddleware (mkError (Some []) (Some 422) (Some "invalid"))
  = Next (TypeError "Cannot read property 'message' of undefined").
Proof. reflexivity. Qed.

(** The error [save] rejects with when the name is missing, as the
    middleware answers it. *)
Example errorMiddleware_required_name :
  errorMiddleware (requiredError "name")
  = Sent (mkResponse 400 text_plain (BText (Some "Path `name` is required."))).
Proof. reflexivity. Qed.

(* ================================================================= *)
(** ** Documents written by [res.json] *)

Lemma toJSON_users (users : list User) :
  toJSON (JArr (map userSummary users)) = JArr (map userSummary users).
Proof.
  cbn [toJSON]. f_equal. rewrite map_map. apply map_ext.
  intros u. reflexivity.
Qed.

Lemma toJSON_entries (log : list LogEntry) :
  toJSON (JArr (map entryValue log)) = JArr (map entryJSON log).
Proof.
  cbn [toJSON]. f_equal. rewrite map_map. apply map_ext.
  intros e. reflexivity.
Qed.

Lemma toJSON_log (u : User) (log : option (list LogEntry)) :
  toJSON (JObj [("_id", JStr (_id u));
                ("username", JStr (name u));
                ("count", JNum (Z.of_nat (List.length (exercises u))));
                ("log", match log with
                        | Some entries => JArr (map entryValue entries)
                        | None => JUndefined
                        end)])
  = logDocument u log.
Proof.
  destruct log as [entries|]; unfold logDocument; [|reflexivity].
  rewrite <- toJSON_entries. reflexivity.
Qed.

(** The keys of a log entry's document: [description] and [duration] when
    the exercise has them, then [date]. *)
Lemma entryJSON_complete (e : LogEntry) (desc : string) (dur : Z) :
  log_description e = Some desc ->
  log_duration e = Some dur ->
  entryJSON e = JObj [("description", JStr desc); ("duration", JNum dur);
                      ("date", JStr (log_date e))].
Proof.
  intros Hd Hn. unfold entryJSON, entryValue. now rewrite Hd, Hn.
Qed.

(* ================================================================= *)
(** ** The store *)

Lemma findById_id id (db : DB) (u : User) :
  findById id db = Some u -> _id u = id.
Proof.
  unfold findById. intros F. apply find_some in F as [_ E].
  now apply String.eqb_eq.
Qed.

Lemma findById_In id (db : DB) (u : User) :
  findById id db = Some u -> In u db.
Proof. unfold findById. intros F. now apply find_some in F. Qed.

(** An update of a missing document changes nothing. *)
Lemma findByIdAndUpdate_missing id update (db : DB) :
  findById id db = None -> findByIdAndUpdate id update db = (db, None).
Proof.
  unfold findById. induction db as [|u rest IH]; [reflexivity|].
  cbn [find findByIdAndUpdate]. destruct (String.eqb (_id u) id); [discriminate|].
  intros F. now rewrite (IH F).
Qed.

(** An update of a stored document returns the updated document and leaves
    it in the store under the same [_id]. *)
Lemma findByIdAndUpdate_found id update (db : DB) (u : User) :
  (forall v, _id (update v) = _id v) ->
  findById id db = Some u ->
  exists db',
    findByIdAndUpdate id update db = (db', Some (update u))
    /\ findById id db' = Some (update u)
    /\ List.length db' = List.length db
    /\ (forall other, other <> id -> findById other db' = findById other db).
Proof.
  intros Hid. unfold findById. induction db as [|v rest IH]; [discriminate|].
  cbn [find findByIdAndUpdate]. destruct (String.eqb (_id v) id) eqn:E.
  - intros [= ->]. exists (update u :: rest). cbn [find]. rewrite Hid, E.
    repeat split; try reflexivity.
    intros other Ho. apply String.eqb_eq in E. subst id.
    apply not_eq_sym in Ho. apply String.eqb_neq in Ho. rewrite Ho.
    reflexivity.
  - intros F. destruct (IH F) as (db' & U & F' & L & O). rewrite U.
    exists (v :: db'). cbn [find]. rewrite E. repeat split; try assumption.
    + cbn [List.length]. now rewrite L.
    + intros other Ho. destruct (String.eqb (_id v) other); [reflexivity|].
      now apply O.
Qed.

(* ================================================================= *)
(** ** The log request *)

Section Logs.
Context {host : Host}.

Lemma formatLog_dated (exs : list Exercise) :
  Forall dated exs ->
  exists mapped,
    formatLog exs = Some mapped
    /\ Forall2 isEntryOf exs mapped
    /\ Forall readable mapped.
Proof.
  induction 1 as [|ex rest (d & t & Hd & Ht) _ (mapped & F & M & R)].
  - exists []. repeat split; constructor.
  - exists (mkLogEntry (description ex) (duration ex) (toDateString d) :: mapped).
    cbn [formatLog]. rewrite Hd, F. repeat split.
    + constructor; [|exact M]. repeat split. now exists d.
    + constructor; [|exact R]. now exists t.
Qed.

(** The two early returns of the filter callback are the two inclusive
    bounds. *)
Lemma inRange_within (from to : option string) (e : LogEntry) :
  readable e ->
  inRange (dateOrNull from) (dateOrNull to) e
  = entryWithin (boundOf from) (boundOf to) e.
Proof.
  intros [d Hd]. unfold inRange, entryWithin, withinBounds. rewrite Hd.
  assert (B : forall q : option string,
             match dateOrNull q with
             | Some b => Some b = Some (boundOf q)
             | None => boundOf q = None
             end)
    by (intros [[|c s]|]; reflexivity).
  pose proof (B from) as Bf. pose proof (B to) as Bt.
  destruct (dateOrNull from) as [f|]; [injection Bf as ->|rewrite Bf];
    (destruct (dateOrNull to) as [t|]; [injection Bt as ->|rewrite Bt]);
    repeat match goal with
           | |- context [boundOf ?q] => destruct (boundOf q)
           end;
    cbn [dateLt]; rewrite ?Z.leb_antisym;
    repeat match goal with
           | |- context [?a <? ?b] => destruct (a <? b)
           end; reflexivity.
Qed.

Lemma filter_all {A} (p : A -> bool) (l : list A) :
  Forall (fun x => p x = true) l -> filter p l = l.
Proof.
  induction 1 as [|x l Hx _ IH]; [reflexivity|].
  cbn [filter]. now rewrite Hx, IH.
Qed.

(** Lines 162-170: the log after the date filter. *)
Lemma filtered_log (from to : option string) (log0 : list LogEntry) :
  Forall readable log0 ->
  match dateOrNull from, dateOrNull to with
  | None, None => log0
  | _, _ => filter (inRange (dateOrNull from) (dateOrNull to)) log0
  end = spec_log log0 (boundOf from) (boundOf to) None.
Proof.
  intros R. unfold spec_log.
  assert (E : filter (inRange (dateOrNull from) (dateOrNull to)) log0
              = filter (entryWithin (boundOf from) (boundOf to)) log0).
  { apply filter_ext_in. intros e He. apply inRange_within.
    rewrite Forall_forall in R. now apply R. }
  destruct (dateOrNull from) eqn:Ef; [exact E|].
  destruct (dateOrNull to) eqn:Et; [exact E|].
  rewrite <- E. symmetry. apply filter_all.
  eapply Forall_impl; [|exact R]. intros e [t Ht].
  unfold inRange. reflexivity.
Qed.

(** Lines 173-175, for a limit that is not negative. *)
Lemma applyLimit_spec (q : option string) (log : list LogEntry) :
  (forall n, intOrNull q = Some (Num n) -> 0 <= n) ->
  applyLimit (intOrNull q) log
  = inl (match limitOf q with
         | Some n => if n <? Z.of_nat (List.length log)
                     then firstn (Z.to_nat n) log
                     else log
         | None => log
         end).
Proof.
  intros Hn. unfold applyLimit, limitOf.
  destruct q as [[|c s]|]; cbn [intOrNull] in *; try reflexivity.
  destruct (parseInt (String c s)) as [|n]; [reflexivity|].
  specialize (Hn n eq_refl). cbn [truthyNum numLt setLength].
  destruct (Z.eqb_spec n 0) as [->|Hz]; cbn [negb andb]; [reflexivity|].
  destruct (Z.ltb_spec 0 n); [|lia].
  destruct (n <? Z.of_nat (List.length log)); [|reflexivity].
  destruct (Z.ltb_spec n 0); [lia|reflexivity].
Qed.

(** The handler on a user whose exercises are all dated: the entries are
    mapped and filtered, and the limit is applied to the result. *)
Lemma getUserHandler_log id (query : LogQuery) (db : DB) (u : User) :
  findById id db = Some u ->
  exercises u <> [] ->
  Forall dated (exercises u) ->
  exists mapped,
    Forall2 isEntryOf (exercises u) mapped
    /\ getUserHandler id query db
       = match applyLimit (intOrNull (query_limit query))
                 (spec_log mapped (boundOf (query_from query))
                           (boundOf (query_to query)) None) with
         | inl log => ok_json 200 (logDocument u (Some log))
         | inr err => Next err
         end.
Proof.
  intros F Hne D. destruct (formatLog_dated _ D) as (mapped & Fm & M & R).
  exists mapped. split; [exact M|].
  unfold getUserHandler. rewrite F.
  destruct (exercises u) as [|ex rest] eqn:Ex; [contradiction|].
  rewrite Fm, (filtered_log _ _ _ R).
  destruct (applyLimit _ _) as [log|err]; [|reflexivity].
  rewrite <- Ex.
  exact (f_equal (ok_json 200) (toJSON_log u (Some log))).
Qed.

End Logs.

(** Whatever the query, a response to the log request of a stored user is
    a 200 with the user's log document. *)
Lemma getUserHandler_sent {host : Host} id (query : LogQuery) (db : DB)
  (u : User) (r : Response) :
  findById id db = Some u ->
  getUserHandler id query db = Sent r ->
  exists log, r = mkResponse 200 application_json (BJson (logDocument u log)).
Proof.
  intros F. unfold getUserHandler. rewrite F.
  destruct (exercises u) as [|ex rest] eqn:Ex.
  - intros [= <-]. exists None. unfold logDocument. now rewrite Ex.
  - destruct (formatLog (ex :: rest)) as [log0|]; [|discriminate].
    destruct (applyLimit _ _) as [log|err]; [|discriminate].
    intros [= <-]. exists (Some log). unfold logDocument. rewrite Ex.
    rewrite <- toJSON_entries. reflexivity.
Qed.

Lemma count_of_logDocument (u : User) (log : option (list LogEntry)) :
  getProp "count" (logDocument u log)
  = Some (JNum (Z.of_nat (List.length (exercises u)))).
Proof. reflexivity. Qed.

Lemma ann_dated : Forall (@dated utc) (exercises ann).
Proof.
  repeat constructor;
    match goal with
    | |- dated ?ex =>
        let d := eval vm_compute in (date ex) in
        match d with
        | Some ?t =>
            exists t, (match @Date_new utc (@toDateString utc t) with
                       | Some x => x
                       | None => 0
                       end)
        end
    end; split; vm_compute; reflexivity.
Qed.

(** The handler on a user whose exercises are all dated, for a limit that
    is not negative. *)
Lemma getUserHandler_spec_log {host : Host} id (query : LogQuery) (db : DB)
  (u : User) :
  findById id db = Some u ->
  exercises u <> [] ->
  Forall dated (exercises u) ->
  (forall n, intOrNull (query_limit query) = Some (Num n) -> 0 <= n) ->
  exists mapped,
    Forall2 isEntryOf (exercises u) mapped
    /\ getUserHandler id query db
       = ok_json 200
           (logDocument u
              (Some (spec_log mapped (boundOf (query_from query))
                              (boundOf (query_to query))
                              (limitOf (query_limit query))))).
Proof.
  intros F Hne D Hn.
  destruct (getUserHandler_log id query db u F Hne D) as (mapped & M & E).
  exists mapped. split; [exact M|].
  rewrite E, (applyLimit_spec _ _ Hn). reflexivity.
Qed.






(** C5. The [count] of a log response is the number of exercises the user
    has stored, whatever [from], [to] and [limit] keep of the log: the
    handler answers 200 with that count when the exercises are dated and
    the limit is not negative, and no response it sends carries another
    count. On the three exercises of the examples the count is 3 while the
    filtered log has one entry. *)
Theorem log_count_is_unfiltered_total :
  (forall (host : Host) id (query : LogQuery) (db : DB) (u : User),
      findById id db = Some u ->
      Forall dated (exercises u) ->
      (forall n, intOrNull (query_limit query) = Some (Num n) -> 0 <= n) ->
      exists doc,
        getUserHandler id query db = ok_json 200 doc
        /\ getProp "count" doc
           = Some (JNum (Z.of_nat (List.length (exercises u)))))
  /\ (forall (host : Host) id (query : LogQuery) (db : DB) (u : User)
             (r : Response),
      findById id db = Some u ->
      getUserHandler id query db = Sent r ->
      exists doc,
        body r = BJson doc
        /\ getProp "count" doc
           = Some (JNum (Z.of_nat (List.length (exercises u)))))
  /\ (exists doc,
        @getUserHandler utc "u1"
          (mkQuery (Some "2024-01-10") (Some "2024-01-31") None) annStore
        = ok_json 200 doc
        /\ getProp "count" doc = Some (JNum 3)
        /\ exists entry, getProp "log" doc = Some (JArr [entry])).
Proof.
  split; [|split].
  - intros host id query db u F D Hn.
    destruct (exercises u) as [|ex rest] eqn:Ex.
    + exists (logDocument u None). split; [|now rewrite <- Ex].
      unfold getUserHandler. rewrite F, Ex. unfold logDocument. now rewrite Ex.
    + assert (Hne : exercises u <> []) by now rewrite Ex.
      rewrite <- Ex in D.
      destruct (getUserHandler_spec_log id query db u F Hne D Hn)
        as (mapped & _ & E).
      eexists. split; [exact E|]. now rewrite <- Ex.
  - intros host id query db u r F E.
    destruct (getUserHandler_sent id query db u r F E) as (log & ->).
    eexists. split; [reflexivity|]. apply count_of_logDocument.
  - eexists. split; [vm_compute; reflexivity|].
    split; [reflexivity|]. eexists. reflexivity.
Qed.

(** The count of ["ann"]'s log under a date range and a limit. *)
Lemma log_count_is_unfiltered_total_witness :
  (exists doc,
     @getUserHandler utc "u1"
       (mkQuery (Some "2024-01-10") None (Some "1")) [ann] = ok_json 200 doc
     /\ getProp "count" doc = Some (JNum 3))
  /\ (exists doc,
        BJson (logDocument ann (Some [mkLogEntry (Some "run") (Some 30)
                                                 "Mon Jan 01 2024"]))
        = BJson doc
        /\ getProp "count" doc = Some (JNum 3)).
Proof.
  split.
  - apply (proj1 log_count_is_unfiltered_total utc "u1"
             (mkQuery (Some "2024-01-10") None (Some "1")) [ann] ann).
    + reflexivity.
    + exact ann_dated.
    + intros n. vm_compute. intros [= <-]. discriminate.
  - apply (proj1 (proj2 log_count_is_unfiltered_total) utc "u1"
             (mkQuery None None (Some "1")) [ann] ann
             (mkResponse 200 application_json
                (BJson (logDocument ann
                          (Some [mkLogEntry (Some "run") (Some 30)
                                            "Mon Jan 01 2024"]))))).
    + reflexivity.
    + vm_compute. reflexivity.
Defined.

(** C9. For a stored user with no exercise, the log response has the count
    0 and no [log] property: its document is the user's id, name and
    count. *)
Theorem log_omitted_without_exercises {host : Host} id (query : LogQuery)
  (db : DB) (u : User) :
  findById id db = Some u ->
  exercises u = [] ->
  getUserHandler id query db
  = ok_json 200 (JObj [("_id", JStr (_id u));
                       ("username", JStr (name u));
                       ("count", JNum 0)])
  /\ (forall doc, getUserHandler id query db = ok_json 200 doc ->
                  getProp "log" doc = None /\ getProp "count" doc = Some (JNum 0)).
Proof.
  intros F Ex.
  assert (E : getUserHandler id query db
              = ok_json 200 (JObj [("_id", JStr (_id u));
                                   ("username", JStr (name u));
                                   ("count", JNum 0)])).
  { unfold getUserHandler. now rewrite F, Ex. }
  split; [exact E|].
  intros doc E'. rewrite E in E'. injection E' as <-. now split.
Qed.

(** A user who has just been created. *)
Lemma log_omitted_without_exercises_witness :
  @getUserHandler utc "u7" (mkQuery None None (Some "5"))
     [mkUser "u7" "bea" 0 []]
  = ok_json 200 (JObj [("_id", JStr "u7"); ("username", JStr "bea");
                       ("count", JNum 0)]).
Proof.
  exact (proj1 (@log_omitted_without_exercises utc "u7"
                  (mkQuery None None (Some "5")) [mkUser "u7" "bea" 0 []]
                  (mkUser "u7" "bea" 0 []) eq_refl eq_refl)).
Defined.

(** C10. For a stored user whose exercises are dated and not empty: when
    the [limit] parameter reads as [NaN] or as 0, the response carries the
    whole filtered log; and in every case the handler sends the whole
    filtered log unless the limit reads as a number other than 0 and below
    the length of the filtered log, in which case it sends the first
    [limit] entries, or fails when the number is negative. *)
Theorem falsy_limit_does_not_truncate {host : Host} id (query : LogQuery)
  (db : DB) (u : User) :
  findById id db = Some u ->
  exercises u <> [] ->
  Forall dated (exercises u) ->
  exists mapped,
    Forall2 isEntryOf (exercises u) mapped
    /\ let full := spec_log mapped (boundOf (query_from query))
                            (boundOf (query_to query)) None in
       (forall s, query_limit query = Some s ->
                  parseInt s = NaN \/ parseInt s = Num 0 ->
                  getUserHandler id query db
                  = ok_json 200 (logDocument u (Some full)))
       /\ (getUserHandler id query db = ok_json 200 (logDocument u (Some full))
           \/ exists n,
               intOrNull (query_limit query) = Some (Num n)
               /\ n <> 0
               /\ n < Z.of_nat (List.length full)
               /\ if n <? 0
                  then getUserHandler id query db
                       = Next (RangeError "Invalid array length")
                  else getUserHandler id query db
                       = ok_json 200
                           (logDocument u (Some (firstn (Z.to_nat n) full)))).
Proof.
  intros F Hne D.
  destruct (getUserHandler_log id query db u F Hne D) as (mapped & M & E).
  exists mapped. split; [exact M|]. intros full. fold full in E. split.
  - intros s Hs Hp. rewrite E, Hs.
    destruct s as [|c s]; [reflexivity|]. cbn [intOrNull].
    now destruct Hp as [-> | ->].
  - rewrite E. destruct (intOrNull (query_limit query)) as [[|n]|];
      try (left; reflexivity).
    unfold applyLimit. cbn [truthyNum numLt setLength].
    destruct (Z.eqb_spec n 0) as [->|Hz]; cbn [negb andb];
      [left; reflexivity|].
    destruct (Z.ltb_spec n (Z.of_nat (List.length full))) as [Hlt|Hge];
      [|left; reflexivity].
    right. exists n. repeat split; try assumption.
    now destruct (n <? 0).
Qed.

(** ["ann"]'s log with [limit=0]. *)
Lemma falsy_limit_does_not_truncate_witness :
  exists mapped,
    Forall2 (@isEntryOf utc) (exercises ann) mapped
    /\ @getUserHandler utc "u1" (mkQuery None None (Some "0")) [ann]
       = ok_json 200
           (logDocument ann (Some (@spec_log utc mapped None None None))).
Proof.
  destruct (@falsy_limit_does_not_truncate utc "u1"
              (mkQuery None None (Some "0")) [ann] ann eq_refl
              ltac:(discriminate) ann_dated) as (mapped & M & H0 & _).
  exists mapped. split; [exact M|].
  exact (H0 "0" eq_refl (or_intror eq_refl)).
Defined.

Example limit_zero_keeps_all :
  @getUserHandler utc "u1" (mkQuery None None (Some "0")) annStore
  = ok_json 200 (logDocument ann (Some annLog)).
Proof. vm_compute. reflexivity. Qed.

Example limit_not_a_number_keeps_all :
  @getUserHandler utc "u1" (mkQuery None None (Some "abc")) annStore
  = ok_json 200 (logDocument ann (Some annLog)).
Proof. vm_compute. reflexivity. Qed.

Example limit_two_keeps_two :
  @getUserHandler utc "u1" (mkQuery None None (Some "2")) annStore
  = ok_json 200 (logDocument ann (Some (firstn 2 annLog))).
Proof. vm_compute. reflexivity. Qed.

Example limit_negative_fails :
  @getUserHandler utc "u1" (mkQuery None None (Some "-1")) annStore
  = Next (RangeError "Invalid array length").
Proof. vm_compute. reflexivity. Qed.

(** The filter compares the midnight, local time, of the day an entry
    shows with the bounds as [new Date] reads them, an ISO date being
    midnight UTC. On a server one hour east of UTC an exercise dated
    2024-01-10 shows as ["Wed Jan 10 2024"], whose local midnight is one hour
    before the bound [from=2024-01-10]. *)
Example bounds_are_instants_east_of_utc :
  let db := [mkUser "u1" "ann" 1
               [mkExercise "e1" (Some "run") (Some 30) (Some 1704844800000)]] in
  @getUserHandler (hostAt 60) "u1" (mkQuery None None None) db
  = ok_json 200
      (JObj [("_id", JStr "u1"); ("username", JStr "ann"); ("count", JNum 1);
             ("log", JArr [JObj [("description", JStr "run");
                                 ("duration", JNum 30);
                                 ("date", JStr "Wed Jan 10 2024")]])])
  /\ @getUserHandler (hostAt 60) "u1" (mkQuery (Some "2024-01-10") None None) db
     = ok_json 200
         (JObj [("_id", JStr "u1"); ("username", JStr "ann"); ("count", JNum 1);
                ("log", JArr [])])
  /\ @getUserHandler utc "u1" (mkQuery (Some "2024-01-10") None None) db
     = ok_json 200
         (JObj [("_id", JStr "u1"); ("username", JStr "ann"); ("count", JNum 1);
                ("log", JArr [JObj [("description", JStr "run");
                                    ("duration", JNum 30);
                                    ("date", JStr "Wed Jan 10 2024")]])]).
Proof. repeat split; vm_compute; reflexivity. Qed.

(* ================================================================= *)
(** ** Requests for a user that is not stored *)

(** C3. For an id no stored user has, neither the exercise form nor the log
    request answers 404: the update and the lookup return [null], reading a
    property of it throws a [TypeError], the [catch] clause passes it to
    [next], and the answer is a 500, from the default handler as from the
    error middleware. *)
Theorem missing_user_is_answered_500 {host : Host} id (db : DB) :
  findById id db = None ->
  (forall generated now body,
      addExerciseHandler generated now id body db
      = (db, Next (TypeError "Cannot read property 'name' of null"))
      /\ statusCode (snd (app (POST_exercises generated now id body) db)) = 500)
  /\ (forall query,
         getUserHandler id query db
         = Next (TypeError "Cannot read property 'toObject' of null")
         /\ statusCode (snd (app (GET_logs id query) db)) = 500)
  /\ (forall msg,
         exists text,
           errorMiddleware (TypeError msg)
           = Sent (mkResponse 500 text_plain (BText text))).
Proof.
  intros F. repeat split.
  - unfold addExerciseHandler. now rewrite (findByIdAndUpdate_missing _ _ _ F).
  - cbn [app]. unfold addExerciseHandler.
    now rewrite (findByIdAndUpdate_missing _ _ _ F).
  - unfold getUserHandler. now rewrite F.
  - cbn [app]. unfold getUserHandler. now rewrite F.
  - intros msg. unfold errorMiddleware, TypeError. cbn.
    destruct msg; eexists; reflexivity.
Qed.

(** The two requests for ["nobody"] on the store of the examples. *)
Lemma missing_user_is_answered_500_witness :
  statusCode
    (snd (@app utc (POST_exercises "e9" 1717243200000 "nobody"
                      (mkBody (Some "run") (Some 30) None)) [ann])) = 500
  /\ statusCode
       (snd (@app utc (GET_logs "nobody" (mkQuery None None None)) [ann]))
     = 500.
Proof.
  pose proof (@missing_user_is_answered_500 utc "nobody" [ann] eq_refl)
    as (P & G & _).
  split.
  - exact (proj2 (P "e9" 1717243200000 (mkBody (Some "run") (Some 30) None))).
  - exact (proj2 (G (mkQuery None None None))).
Defined.

(* ================================================================= *)
(** ** The exercise form *)

(** C6. On a stored user, a body with a description, a duration and a date
    that is either left out or read by [new Date] is answered 201 with the
    document [{username, description, duration, _id, date}]: [_id] is the
    user's, and [date] is the day string of the date of the exercise, which
    is the date [new Date] reads from the body's [date] and, when the body
    has no date or an empty one, the time of the call. The exercise is
    appended to the user's exercises with that date. *)
Theorem exercise_added_is_echoed {host : Host} generated now id
  (body : ExerciseBody) (db : DB) (u : User) desc dur t :
  findById id db = Some u ->
  body_description body = Some desc ->
  body_duration body = Some dur ->
  dateOfBody body now t ->
  exists db',
    addExerciseHandler generated now id body db
    = (db', ok_json 201 (JObj [("username", JStr (name u));
                               ("description", JStr desc);
                               ("duration", JNum dur);
                               ("_id", JStr id);
                               ("date", JStr (toDateString t))]))
    /\ findById id db'
       = Some (mkUser id (name u) (count u + 1)
                 (exercises u
                  ++ [mkExercise generated (Some desc) (Some dur) (Some t)])).
Proof.
  intros F Hd Hn Hdate.
  assert (Ht : dateOr (body_date body) (Some now) = Some t).
  { unfold dateOfBody in Hdate. destruct (body_date body) as [[|c s]|];
      cbn [dateOr String.eqb] in *; congruence. }
  pose (exercise := mkExercise generated (Some desc) (Some dur) (Some t)).
  destruct (findByIdAndUpdate_found id (push_inc exercise) db u
              (fun v => eq_refl) F) as (db' & U & F' & _).
  exists db'. unfold addExerciseHandler, new_Exercise.
  rewrite Hd, Hn, Ht. fold exercise. rewrite U. cbn [date exercise].
  pose proof (findById_id _ _ _ F) as I.
  split.
  - unfold push_inc. cbn [name _id description duration exercise]. now rewrite I.
  - rewrite F'. unfold push_inc. now rewrite I.
Qed.

(** Two runs logged for ["ann"] at noon UTC on 2024-06-01: one with no
    date, one dated 2024-01-01. *)
Lemma exercise_added_is_echoed_witness :
  (exists db',
      @addExerciseHandler utc "e4" 1717243200000 "u1"
        (mkBody (Some "run") (Some 30) None) [ann]
      = (db', ok_json 201 (JObj [("username", JStr "ann");
                                 ("description", JStr "run");
                                 ("duration", JNum 30);
                                 ("_id", JStr "u1");
                                 ("date", JStr "Sat Jun 01 2024")]))
      /\ findById "u1" db'
         = Some (mkUser "u1" "ann" 4
                   (exercises ann
                    ++ [mkExercise "e4" (Some "run") (Some 30)
                          (Some 1717243200000)])))
  /\ (exists db',
        @addExerciseHandler utc "e4" 1717243200000 "u1"
          (mkBody (Some "run") (Some 30) (Some "2024-01-01")) [ann]
        = (db', ok_json 201 (JObj [("username", JStr "ann");
                                   ("description", JStr "run");
                                   ("duration", JNum 30);
                                   ("_id", JStr "u1");
                                   ("date", JStr "Mon Jan 01 2024")]))
        /\ findById "u1" db'
           = Some (mkUser "u1" "ann" 4
                     (exercises ann
                      ++ [mkExercise "e4" (Some "run") (Some 30)
                            (Some 1704067200000)]))).
Proof.
  split.
  - exact (@exercise_added_is_echoed utc "e4" 1717243200000 "u1"
             (mkBody (Some "run") (Some 30) None) [ann] ann "run" 30
             1717243200000 eq_refl eq_refl eq_refl eq_refl).
  - exact (@exercise_added_is_echoed utc "e4" 1717243200000 "u1"
             (mkBody (Some "run") (Some 30) (Some "2024-01-01")) [ann] ann
             "run" 30 1704067200000 eq_refl eq_refl eq_refl eq_refl).
Defined.

(** A date [new Date] cannot read: the exercise is built without a date,
    the update stores it and counts it, and the handler then fails on
    [exercise.date.toDateString()]; so does every later log request for
    that user. *)
Example unreadable_date_is_stored_undated :
  let '(db', o) :=
    @addExerciseHandler utc "e4" 1717243200000 "u1"
      (mkBody (Some "walk") (Some 60) (Some "someday")) [ann] in
  findById "u1" db'
  = Some (mkUser "u1" "ann" 4
            (exercises ann ++ [mkExercise "e4" (Some "walk") (Some 60) None]))
  /\ o = Next (TypeError "Cannot read property 'toDateString' of undefined")
  /\ @getUserHandler utc "u1" (mkQuery None None None) db'
     = Next (TypeError "Cannot read property 'toDateString' of undefined").
Proof. vm_compute. repeat split. Qed.

(* ================================================================= *)
(** ** Reachable stores *)

Lemma findByIdAndUpdate_map {A} (proj : User -> A) id update (db : DB) :
  (forall v, proj (update v) = proj v) ->
  map proj (fst (findByIdAndUpdate id update db)) = map proj db.
Proof.
  intros P. induction db as [|u rest IH]; [reflexivity|].
  cbn [findByIdAndUpdate]. destruct (String.eqb (_id u) id).
  - cbn [fst map]. now rewrite P.
  - destruct (findByIdAndUpdate id update rest) as [rest' found].
    cbn [fst map] in *. now rewrite IH.
Qed.

Lemma findByIdAndUpdate_Forall (P : User -> Prop) id update (db : DB) :
  (forall v, P v -> P (update v)) ->
  Forall P db -> Forall P (fst (findByIdAndUpdate id update db)).
Proof.
  intros Hu. induction 1 as [|u rest Pu Prest IH]; [constructor|].
  cbn [findByIdAndUpdate]. destruct (String.eqb (_id u) id).
  - constructor; [now apply Hu | assumption].
  - destruct (findByIdAndUpdate id update rest) as [rest' found].
    now constructor.
Qed.

Lemma push_inc_count_matches (exercise : Exercise) (u : User) :
  count_matches u -> count_matches (push_inc exercise u).
Proof.
  unfold count_matches, push_inc. cbn [count exercises]. intros ->.
  rewrite length_app. cbn [List.length]. lia.
Qed.

(** The store the exercise form leaves is the one the update leaves,
    whatever the handler answers. *)
Lemma addExerciseHandler_store {host : Host} generated now id body (db : DB) :
  fst (addExerciseHandler generated now id body db)
  = fst (findByIdAndUpdate id
           (push_inc (new_Exercise generated (body_description body)
                        (body_duration body)
                        (dateOr (body_date body) (Some now)))) db).
Proof.
  unfold addExerciseHandler.
  destruct (findByIdAndUpdate _ _ db) as [db' [user|]]; [|reflexivity].
  now destruct (date _).
Qed.

(** What [save] inserts and when. *)
Lemma createUserHandler_new generated n (db : DB) :
  n <> "" ->
  (forall u, In u db -> name u <> n) ->
  (forall u, In u db -> _id u <> generated) ->
  createUserHandler generated (Some n) db
  = (db ++ [mkUser generated n 0 []],
     ok_json 201 (JObj [("username", JStr n); ("_id", JStr generated)])).
Proof.
  intros Hn Hname Hid. unfold createUserHandler, findOne.
  destruct (find _ db) as [u|] eqn:F.
  { apply find_some in F as [Hu E]. apply String.eqb_eq in E.
    now apply Hname in Hu. }
  unfold save, new_User. cbn [new_name new_id].
  destruct n as [|c n']; [contradiction|].
  destruct (existsb _ db) eqn:X; [|reflexivity].
  apply existsb_exists in X as (u & Hu & E). apply String.eqb_eq in E.
  now apply Hid in Hu.
Qed.

Lemma createUserHandler_existing generated (db : DB) (u : User) :
  NoDup (map name db) ->
  In u db ->
  createUserHandler generated (Some (name u)) db
  = (db, ok_json 200 (JObj [("_id", JStr (_id u));
                            ("username", JStr (name u));
                            ("count", JNum (count u))])).
Proof.
  intros N Hu. unfold createUserHandler, findOne.
  assert (F : find (fun v => String.eqb (name v) (name u)) db = Some u).
  { induction db as [|v rest IH]; [contradiction|].
    cbn [find]. cbn [map] in N. apply NoDup_cons_iff in N as [Nv Nrest].
    destruct Hu as [->|Hu]; [now rewrite String.eqb_refl|].
    destruct (String.eqb_spec (name v) (name u)) as [E|_]; [|now apply IH].
    exfalso. apply Nv. rewrite E. now apply in_map. }
  now rewrite F.
Qed.

(** What [createUserHandler] can do to the store. *)
Lemma createUserHandler_store generated username (db : DB) :
  fst (createUserHandler generated username db) = db
  \/ exists n,
      fst (createUserHandler generated username db)
      = db ++ [mkUser generated n 0 []]
      /\ ~ In n (map name db) /\ ~ In generated (map _id db).
Proof.
  unfold createUserHandler.
  destruct (findOne username db) as [u|] eqn:F; [now left|].
  unfold save, new_User. cbn [new_name new_id].
  destruct username as [[|c n]|]; try now left.
  destruct (existsb _ db) eqn:X; [now left|].
  right. exists (String c n). split; [reflexivity|]. split.
  - intros I. apply in_map_iff in I as (u & E & Hu).
    cbn [findOne] in F. apply (find_none _ _ F) in Hu.
    apply String.eqb_neq in Hu. contradiction.
  - intros I. apply in_map_iff in I as (u & E & Hu).
    assert (existsb (fun v => String.eqb (_id v) generated) db = true).
    { apply existsb_exists. exists u. split; [exact Hu|].
      now apply String.eqb_eq. }
    congruence.
Qed.

Lemma app_store_ok {host : Host} (req : Request) (db : DB) :
  store_ok db -> store_ok (fst (app req db)).
Proof.
  intros [N I C]. destruct req as [g username|g now id body|id query|];
    cbn [app]; [| |now split|now split].
  - destruct (createUserHandler g username db) as [db' o] eqn:E.
    cbn [fst]. pose proof (createUserHandler_store g username db) as S.
    rewrite E in S. cbn [fst] in S.
    destruct S as [->|(n & -> & Hn & Hg)]; [now split|].
    split.
    + rewrite map_app. cbn [map name]. apply NoDup_app; [exact N| |].
      * repeat constructor. intros [].
      * intros x Hx [<-|[]]. contradiction.
    + rewrite map_app. cbn [map _id]. apply NoDup_app; [exact I| |].
      * repeat constructor. intros [].
      * intros x Hx [<-|[]]. contradiction.
    + apply Forall_app. split; [exact C|]. now repeat constructor.
  - destruct (addExerciseHandler g now id body db) as [db' o] eqn:E.
    cbn [fst]. pose proof (addExerciseHandler_store g now id body db) as S.
    rewrite E in S. cbn [fst] in S. rewrite S. split.
    + now rewrite findByIdAndUpdate_map.
    + now rewrite findByIdAndUpdate_map.
    + apply findByIdAndUpdate_Forall; [|exact C].
      intros v. apply push_inc_count_matches.
Qed.

Lemma run_store_ok {host : Host} (reqs : list Request) (db : DB) :
  store_ok db -> store_ok (run reqs db).
Proof.
  revert db. induction reqs as [|req rest IH]; intros db H; [exact H|].
  cbn [run]. apply IH. now apply app_store_ok.
Qed.

Lemma reachable_store_ok {host : Host} (db : DB) :
  reachable db -> store_ok db.
Proof.
  intros [reqs <-]. apply run_store_ok. repeat constructor.
Qed.

(* ================================================================= *)
(** ** Creating users *)

Lemma find_app_last {A} (p : A -> bool) (l : list A) (x : A) :
  (forall y, In y l -> p y = false) ->
  p x = true ->
  find p (l ++ [x]) = Some x.
Proof.
  intros Hl Hx. induction l as [|y l IH]; cbn [List.app find].
  - now rewrite Hx.
  - rewrite (Hl y (or_introl eq_refl)). apply IH.
    intros z Hz. apply Hl. now right.
Qed.

(** C2. Creation is idempotent by name. When a stored user has the name,
    the answer is 200 with that user's [_id], name and count, and the store
    is left as it was. When no stored user has the name (a name is a
    non-empty string, and [shortid] generates an id not yet in use), a user
    with count 0 and no exercise is stored and the answer is 201 with the
    name and the new [_id]. The same request made again is answered 200
    with the same [_id] and name. *)
Theorem user_creation_is_idempotent_by_name {host : Host} :
  (forall generated (db : DB) (u : User),
      reachable db ->
      In u db ->
      createUserHandler generated (Some (name u)) db
      = (db, ok_json 200 (JObj [("_id", JStr (_id u));
                                ("username", JStr (name u));
                                ("count", JNum (count u))])))
  /\ (forall generated n (db : DB),
         n <> "" ->
         (forall u, In u db -> name u <> n) ->
         (forall u, In u db -> _id u <> generated) ->
         createUserHandler generated (Some n) db
         = (db ++ [mkUser generated n 0 []],
            ok_json 201 (JObj [("username", JStr n);
                               ("_id", JStr generated)])))
  /\ (forall generated again n (db : DB),
         n <> "" ->
         (forall u, In u db -> name u <> n) ->
         (forall u, In u db -> _id u <> generated) ->
         let db1 := fst (createUserHandler generated (Some n) db) in
         createUserHandler again (Some n) db1
         = (db1, ok_json 200 (JObj [("_id", JStr generated);
                                    ("username", JStr n);
                                    ("count", JNum 0)]))).
Proof.
  repeat split.
  - intros generated db u R Hu. apply createUserHandler_existing; [|exact Hu].
    now destruct (reachable_store_ok db R).
  - intros generated n db. apply createUserHandler_new.
  - intros generated again n db Hn Hname Hid db1. subst db1.
    rewrite (createUserHandler_new generated n db Hn Hname Hid). cbn [fst].
    unfold createUserHandler, findOne.
    rewrite (find_app_last _ db (mkUser generated n 0 [])); [reflexivity| |].
    + intros y Hy. apply String.eqb_neq. now apply Hname.
    + cbn [name]. apply String.eqb_refl.
Qed.

(** ["ann"] signs up again; ["bob"] signs up, twice. *)
Lemma user_creation_is_idempotent_by_name_witness :
  createUserHandler "u2" (Some "ann") annStore
  = (annStore, ok_json 200 (JObj [("_id", JStr "u1"); ("username", JStr "ann");
                                  ("count", JNum 3)]))
  /\ createUserHandler "u2" (Some "bob") [ann]
     = ([ann; mkUser "u2" "bob" 0 []],
        ok_json 201 (JObj [("username", JStr "bob"); ("_id", JStr "u2")]))
  /\ createUserHandler "u3" (Some "bob")
       (fst (createUserHandler "u2" (Some "bob") [ann]))
     = (fst (createUserHandler "u2" (Some "bob") [ann]),
        ok_json 200 (JObj [("_id", JStr "u2"); ("username", JStr "bob");
                           ("count", JNum 0)])).
Proof.
  assert (Hname : forall u, In u [ann] -> name u <> "bob")
    by (intros u [<-|[]]; discriminate).
  assert (Hid : forall u, In u [ann] -> _id u <> "u2")
    by (intros u [<-|[]]; discriminate).
  assert (Hbob : "bob" <> "") by discriminate.
  assert (R : @reachable utc annStore) by (exists threeExercises; reflexivity).
  assert (Hann : In ann annStore) by (vm_compute; left; reflexivity).
  destruct (@user_creation_is_idempotent_by_name utc) as (T1 & T2 & T3).
  split; [|split].
  - exact (T1 "u2" annStore ann R Hann).
  - exact (T2 "u2" "bob" [ann] Hbob Hname Hid).
  - exact (T3 "u2" "u3" "bob" [ann] Hbob Hname Hid).
Defined.

(* ================================================================= *)
(** ** The count of a user *)

(** A sequence of calls against a stored user appends the exercises of the
    calls, in call order, and adds their number to the count. *)
Lemma addAll_found {host : Host} id (calls : list AddCall) (db : DB) (u : User) :
  findById id db = Some u ->
  findById id (fst (addAll id calls db))
  = Some (mkUser (_id u) (name u)
            (count u + Z.of_nat (List.length calls))
            (exercises u ++ map exerciseOf calls)).
Proof.
  revert db u. induction calls as [|c rest IH]; intros db u F.
  - cbn [addAll fst List.length map]. rewrite F, app_nil_r, Z.add_0_r.
    now destruct u.
  - cbn [addAll].
    destruct (addExerciseHandler (call_generated c) (call_now c) id
                (call_body c) db) as [db1 o] eqn:E.
    pose proof (addExerciseHandler_store (call_generated c) (call_now c) id
                  (call_body c) db) as S.
    rewrite E in S. cbn [fst] in S.
    destruct (findByIdAndUpdate_found id
                (push_inc (exerciseOf c)) db u (fun v => eq_refl) F)
      as (db' & U & F' & _).
    unfold exerciseOf in U at 1. rewrite U in S. cbn [fst] in S. subst db1.
    specialize (IH db' _ F').
    destruct (addAll id rest db') as [db2 os]. cbn [fst] in *.
    rewrite IH. unfold push_inc. cbn [_id name count exercises map List.length].
    rewrite <- app_assoc. cbn [List.app]. f_equal. f_equal. lia.
Qed.

(** C1. In every store the application reaches, the count of each user is
    the number of its exercises. For a user without exercises, after N
    calls of the exercise form that all succeed the count is N and the
    exercises are the N exercises of the calls, in call order. A call on a
    stored user appends its exercise and adds 1 to the count, in the one
    update; a call whose update finds no user fails and leaves the store,
    and so every count, as it was. *)
Theorem count_is_number_of_exercises {host : Host} :
  (forall (db : DB) (u : User),
      reachable db -> In u db ->
      count u = Z.of_nat (List.length (exercises u)))
  /\ (forall id (calls : list AddCall) (db db' : DB) (u : User) outs,
         reachable db ->
         findById id db = Some u ->
         exercises u = [] ->
         addAll id calls db = (db', outs) ->
         Forall (succeeded 201) outs ->
         exists u',
           findById id db' = Some u'
           /\ count u' = Z.of_nat (List.length calls)
           /\ List.length (exercises u') = List.length calls
           /\ exercises u' = map exerciseOf calls)
  /\ (forall generated now id body (db db' : DB) o,
         addExerciseHandler generated now id body db = (db', o) ->
         (forall u, findById id db = Some u ->
                    findById id db'
                    = Some (mkUser (_id u) (name u) (count u + 1)
                              (exercises u
                               ++ [exerciseOf (mkCall generated now body)])))
         /\ (findById id db = None ->
             db' = db /\ ~ succeeded 201 o)).
Proof.
  split; [|split].
  - intros db u R Hu. destruct (reachable_store_ok db R) as [_ _ C].
    rewrite Forall_forall in C. now apply C.
  - intros id calls db db' u outs R F Ex E _.
    pose proof (addAll_found id calls db u F) as A. rewrite E in A.
    cbn [fst] in A. eexists. split; [exact A|].
    destruct (reachable_store_ok db R) as [_ _ C].
    rewrite Forall_forall in C. specialize (C u (findById_In _ _ _ F)).
    unfold count_matches in C. rewrite Ex in *. cbn [count exercises].
    cbn [List.app List.length] in *. rewrite C, length_map.
    split; [reflexivity|]. split; reflexivity.
  - intros generated now id body db db' o E.
    pose proof (addExerciseHandler_store generated now id body db) as S.
    rewrite E in S. cbn [fst] in S. split.
    + intros u F.
      destruct (findByIdAndUpdate_found id
                  (push_inc (exerciseOf (mkCall generated now body))) db u
                  (fun v => eq_refl) F) as (db1 & U & F' & _).
      unfold exerciseOf in U at 1. cbn [call_generated call_now call_body] in U.
      rewrite U in S. cbn [fst] in S. subst db'. exact F'.
    + intros F. split.
      * now rewrite (findByIdAndUpdate_missing _ _ _ F) in S.
      * unfold addExerciseHandler in E.
        rewrite (findByIdAndUpdate_missing _ _ _ F) in E.
        injection E as _ <-. exact (fun x => x).
Qed.

(** The count of ["ann"]; two calls for ["bea"], who has just signed up;
    one call for ["ann"]. *)
Lemma count_is_number_of_exercises_witness :
  count ann = 3
  /\ (exists u',
        findById "u7" (fst (@addAll utc "u7" twoCalls (@run utc signUp [])))
        = Some u'
        /\ count u' = 2
        /\ List.length (exercises u') = 2%nat
        /\ exercises u'
           = [mkExercise "e1" (Some "run") (Some 30) (Some 1704067200000);
              mkExercise "e2" (Some "swim") (Some 45) (Some 1717243200000)])
  /\ findById "u1"
       (fst (@addExerciseHandler utc "e4" 1717243200000 "u1"
               (mkBody (Some "walk") (Some 60) None) [ann]))
     = Some (mkUser "u1" "ann" 4
               (exercises ann
                ++ [mkExercise "e4" (Some "walk") (Some 60)
                      (Some 1717243200000)])).
Proof.
  destruct (@count_is_number_of_exercises utc) as (T1 & T2 & T3).
  split; [|split].
  - apply (T1 annStore ann).
    + exists threeExercises. reflexivity.
    + vm_compute. left. reflexivity.
  - refine (T2 "u7" twoCalls (@run utc signUp [])
              (fst (@addAll utc "u7" twoCalls (@run utc signUp [])))
              (mkUser "u7" "bea" 0 [])
              (snd (@addAll utc "u7" twoCalls (@run utc signUp [])))
              _ _ _ _ _).
    + exists signUp. reflexivity.
    + reflexivity.
    + reflexivity.
    + reflexivity.
    + vm_compute. repeat constructor.
  - refine (proj1 (T3 "e4" 1717243200000 "u1"
                     (mkBody (Some "walk") (Some 60) None) [ann] _ _ _)
                  ann _).
    + apply surjective_pairing.
    + reflexivity.
Defined.

(* ================================================================= *)
(** ** Listing the users *)

(** C8. The list of all users is answered 200 with an array that has, for
    each stored user and in the order of the store, the object of its
    [_id] and its name under [username], with no other property. After
    ["alice"] then ["bob"] have signed up, the array is their two objects. *)
Theorem all_users_are_listed_by_id_and_name {host : Host} :
  (forall db : DB,
      getAllUsersHandlers db = ok_json 200 (JArr (map userSummary db)))
  /\ (forall u : User,
         userSummary u = JObj [("_id", JStr (_id u)); ("username", JStr (name u))]
         /\ keysOf (userSummary u) = ["_id"; "username"])
  /\ snd (app GET_users
            (run [POST_users "u1" (Some "alice"); POST_users "u2" (Some "bob")]
                 []))
     = mkResponse 200 application_json
         (BJson (JArr [JObj [("_id", JStr "u1"); ("username", JStr "alice")];
                       JObj [("_id", JStr "u2"); ("username", JStr "bob")]])).
Proof.
  split; [|split].
  - intros db. unfold getAllUsersHandlers, status_json, ok_json, find_all.
    do 3 f_equal. apply toJSON_users.
  - intros u. split; reflexivity.
  - reflexivity.
Qed.

(* ================================================================= *)
(** ** Further properties: the two middlewares *)

(** X12. When the error middleware answers and when it does not. A
    collection of validation failures takes precedence over a status
    attached to the error: with a first failure the answer is 400 in plain
    text whatever the status, and a collection without entries has no first
    failure, so that reading its message throws and nothing is sent. For an
    error without the collection, with the attached status when it is not
    0 and 500 otherwise: a status below 100 or above 999 makes the
    middleware throw; a 204 or a 304 is answered without body and without
    content type; a status from 200 to 999 other than 204, 205 and 304 is
    answered in plain text with a body that is never empty. *)
Theorem error_middleware_answers_unless_empty (err : JSError) :
  (errors err = Some [] ->
   errorMiddleware err
   = Next (TypeError "Cannot read property 'message' of undefined"))
  /\ (forall key first rest,
         errors err = Some ((key, first) :: rest) ->
         errorMiddleware err
         = Sent (mkResponse 400 text_plain (BText (ve_message first))))
  /\ (errors err = None ->
      forall code,
        (status err = Some code /\ code <> 0)
        \/ ((status err = None \/ status err = Some 0) /\ code = 500) ->
        (code < 100 \/ 999 < code ->
         errorMiddleware err = Next (RangeError "Invalid status code"))
        /\ (code = 204 \/ code = 304 ->
            errorMiddleware err
            = Sent (mkResponse code no_content_type (BText None)))
        /\ (carriesBody code = true ->
            exists text,
              errorMiddleware err
              = Sent (mkResponse code text_plain (BText (Some text)))
              /\ text <> "")).
Proof.
  split; [|split].
  - intros E. unfold errorMiddleware. now rewrite E.
  - intros key first rest E. unfold errorMiddleware. rewrite E.
    cbn [map fst]. now rewrite getOwn_head.
  - intros E code Hcode. unfold errorMiddleware. rewrite E.
    assert (C : match status err with
                | Some s => if s =? 0 then 500 else s
                | None => 500
                end = code).
    { destruct Hcode as [[Es Hs]|[[Es|Es] ->]]; rewrite Es;
        [now destruct (Z.eqb_spec code 0) | reflexivity | reflexivity]. }
    rewrite C. split; [|split].
    + intros Hr. unfold status_txt_send.
      destruct (Z.ltb_spec code 100), (Z.ltb_spec 999 code);
        try reflexivity. lia.
    + intros Hc. unfold status_txt_send.
      destruct (Z.ltb_spec code 100); [lia|].
      destruct (Z.ltb_spec 999 code); [lia|]. cbn [orb].
      destruct Hc as [-> | ->]; reflexivity.
    + intros Hb.
      exists (match message err with
              | Some (String c m) => String c m
              | _ => "Internal Server Error"
              end).
      split.
      * destruct (message err) as [[|c m]|]; cbn [truthyStr];
          now apply status_txt_send_body.
      * destruct (message err) as [[|c m]|]; discriminate.
Qed.

(** A validation error that also carries the status 422; an empty
    collection; the statuses 99, 204 and 403. *)
Lemma error_middleware_answers_unless_empty_witness :
  errorMiddleware (mkError (Some []) (Some 422) (Some "invalid"))
  = Next (TypeError "Cannot read property 'message' of undefined")
  /\ errorMiddleware
       (mkError (Some [("name", mkValidatorError (Some "required"))])
                (Some 422) (Some "invalid"))
     = Sent (mkResponse 400 text_plain (BText (Some "required")))
  /\ errorMiddleware (mkError None (Some 99) None)
     = Next (RangeError "Invalid status code")
  /\ errorMiddleware (mkError None (Some 204) (Some "gone"))
     = Sent (mkResponse 204 no_content_type (BText None))
  /\ exists text,
       errorMiddleware (mkError None (Some 403) (Some ""))
       = Sent (mkResponse 403 text_plain (BText (Some text)))
       /\ text <> "".
Proof.
  assert (At : forall code m, code <> 0 ->
                 (status (mkError None (Some code) m) = Some code /\ code <> 0)
                 \/ ((status (mkError None (Some code) m) = None
                      \/ status (mkError None (Some code) m) = Some 0)
                     /\ code = 500))
    by (intros code m H; left; split; [reflexivity | exact H]).
  split; [|split; [|split; [|split]]].
  - exact (proj1 (error_middleware_answers_unless_empty
                    (mkError (Some []) (Some 422) (Some "invalid"))) eq_refl).
  - exact (proj1 (proj2 (error_middleware_answers_unless_empty
                           (mkError (Some [("name",
                                            mkValidatorError (Some "required"))])
                                    (Some 422) (Some "invalid"))))
                 "name" (mkValidatorError (Some "required")) [] eq_refl).
  - apply (proj2 (proj2 (error_middleware_answers_unless_empty
                           (mkError None (Some 99) None)))
                 eq_refl 99 (At 99 None ltac:(discriminate))).
    left. reflexivity.
  - apply (proj2 (proj2 (error_middleware_answers_unless_empty
                           (mkError None (Some 204) (Some "gone"))))
                 eq_refl 204 (At 204 (Some "gone") ltac:(discriminate))).
    left. reflexivity.
  - apply (proj2 (proj2 (error_middleware_answers_unless_empty
                           (mkError None (Some 403) (Some ""))))
                 eq_refl 403 (At 403 (Some "") ltac:(discriminate))).
    reflexivity.
Defined.

(** X13. The "not found" middleware passes a request on as soon as its body
    or its parameters are an object, which is what [body-parser] and the
    router leave there. The error it forwards otherwise is answered by the
    error middleware, which follows it in the stack, with 404 and the plain
    text "not found". *)
Theorem not_found_is_answered_404 (body params : JSValue) :
  ((exists props, body = JObj props) \/ (exists props, params = JObj props) ->
   notFoundMiddleware body params = None)
  /\ (forall err,
        notFoundMiddleware body params = Some err ->
        truthy body = false /\ truthy params = false
        /\ errorMiddleware err
           = Sent (mkResponse 404 text_plain (BText (Some "not found")))).
Proof.
  unfold notFoundMiddleware. split.
  - intros [[props ->]|[props ->]]; cbn [truthy]; [reflexivity|].
    now rewrite orb_true_r.
  - intros err. destruct (truthy body); [discriminate|].
    destruct (truthy params); [discriminate|].
    intros [= <-]. repeat split.
Qed.

(** A request with an empty body object, and one with neither body nor
    parameters. *)
Lemma not_found_is_answered_404_witness :
  notFoundMiddleware (JObj []) JUndefined = None
  /\ errorMiddleware (mkError None (Some 404) (Some "not found"))
     = Sent (mkResponse 404 text_plain (BText (Some "not found"))).
Proof.
  split.
  - exact (proj1 (not_found_is_answered_404 (JObj []) JUndefined)
                 (or_introl (ex_intro _ [] eq_refl))).
  - exact (proj2 (proj2 (proj2 (not_found_is_answered_404 JUndefined JUndefined)
                                 (mkError None (Some 404) (Some "not found"))
                                 eq_refl))).
Defined.

(* ================================================================= *)
(** ** Further properties: the users of the store *)

Lemma find_app_found {A} (p : A -> bool) (l l' : list A) (x : A) :
  find p l = Some x -> find p (l ++ l') = Some x.
Proof.
  induction l as [|y l IH]; cbn [List.app find]; [discriminate|].
  destruct (p y); [trivial | exact IH].
Qed.

Lemma find_app_missing {A} (p : A -> bool) (l l' : list A) :
  find p l = None -> find p (l ++ l') = find p l'.
Proof.
  induction l as [|y l IH]; cbn [List.app find]; [reflexivity|].
  destruct (p y); [discriminate | exact IH].
Qed.

(** What a sign-up does: either the store is left as it was and the answer
    is not a 201, or a user with the given, non-empty name, the generated
    id, count 0 and no exercise is added at the end, and the answer is a
    201. *)
Lemma createUserHandler_effect generated username (db : DB) :
  (fst (createUserHandler generated username db) = db
   /\ ~ succeeded 201 (snd (createUserHandler generated username db)))
  \/ exists n,
      username = Some n /\ n <> ""
      /\ findOne (Some n) db = None
      /\ findById generated db = None
      /\ createUserHandler generated username db
         = (db ++ [mkUser generated n 0 []],
            ok_json 201 (JObj [("username", JStr n); ("_id", JStr generated)])).
Proof.
  unfold createUserHandler.
  destruct (findOne username db) as [u|] eqn:F.
  { left. split; [reflexivity|]. cbn. discriminate. }
  unfold save, new_User. cbn [new_name new_id].
  destruct username as [[|c n]|];
    try (left; split; [reflexivity | exact (fun x => x)]).
  destruct (existsb _ db) eqn:X.
  { left. split; [reflexivity | exact (fun x => x)]. }
  right. exists (String c n). repeat split; try assumption; try discriminate.
  unfold findById. destruct (find _ db) as [u|] eqn:Fi; [|reflexivity].
  apply find_some in Fi as [Hu E].
  assert (existsb (fun v => String.eqb (_id v) generated) db = true)
    by (apply existsb_exists; now exists u).
  congruence.
Qed.

(** X4. A sign-up changes the store only when it is answered 201, and then
    only by adding one user at the end: the user has the name of the
    request, which is not empty and was not taken, the generated id, which
    was not in use, the count 0 and no exercise. In every other case the
    store is left exactly as it was. *)
Theorem signup_adds_one_user_or_nothing generated username (db : DB) :
  let db' := fst (createUserHandler generated username db) in
  let o := snd (createUserHandler generated username db) in
  (db' = db /\ ~ succeeded 201 o)
  \/ (exists n,
         username = Some n /\ n <> ""
         /\ (forall u, In u db -> name u <> n)
         /\ (forall u, In u db -> _id u <> generated)
         /\ db' = db ++ [mkUser generated n 0 []]
         /\ succeeded 201 o).
Proof.
  cbv zeta.
  destruct (createUserHandler_effect generated username db)
    as [H|(n & Hu & Hn & Fo & Fi & E)]; [now left|].
  right. exists n. rewrite E. cbn [fst snd]. repeat split; try assumption.
  - intros u Hin. cbn [findOne] in Fo. apply (find_none _ _ Fo) in Hin.
    now apply String.eqb_neq.
  - intros u Hin. unfold findById in Fi. apply (find_none _ _ Fi) in Hin.
    now apply String.eqb_neq.
Qed.

Lemma app_names_given {host : Host} (req : Request) (db : DB) :
  Forall (fun u => name u <> "") db ->
  Forall (fun u => name u <> "") (fst (app req db)).
Proof.
  intros G. destruct req as [g username|g now id body|id query|];
    cbn [app]; [| |exact G|exact G].
  - destruct (createUserHandler_effect g username db)
      as [[E _]|(n & _ & Hn & _ & _ & E)];
      destruct (createUserHandler g username db) as [db' o];
      cbn [fst] in *.
    + now rewrite E.
    + injection E as -> _. apply Forall_app. split; [exact G|].
      now repeat constructor.
  - pose proof (addExerciseHandler_store g now id body db) as S.
    destruct (addExerciseHandler g now id body db) as [db' o].
    cbn [fst] in *. rewrite S.
    now apply findByIdAndUpdate_Forall.
Qed.

Lemma reachable_names_given {host : Host} (db : DB) :
  reachable db -> Forall (fun u => name u <> "") db.
Proof.
  intros [reqs <-].
  assert (G : forall start, Forall (fun u => name u <> "") start ->
                            Forall (fun u => name u <> "") (run reqs start)).
  { induction reqs as [|req rest IH]; intros start H; [exact H|].
    cbn [run]. apply IH. now apply app_names_given. }
  apply G. constructor.
Qed.

(** In a store where ids are distinct, a stored user is the one its id
    finds. *)
Lemma findById_of_In (db : DB) (u : User) :
  NoDup (map _id db) -> In u db -> findById (_id u) db = Some u.
Proof.
  unfold findById. induction db as [|v rest IH]; [contradiction|].
  cbn [map find]. intros N Hu. apply NoDup_cons_iff in N as [Nv Nrest].
  destruct Hu as [->|Hu]; [now rewrite String.eqb_refl|].
  destruct (String.eqb_spec (_id v) (_id u)) as [E|_]; [|now apply IH].
  exfalso. apply Nv. rewrite E. now apply in_map.
Qed.

Lemma findOne_of_In (db : DB) (u : User) :
  NoDup (map name db) -> In u db -> findOne (Some (name u)) db = Some u.
Proof.
  cbn [findOne]. induction db as [|v rest IH]; [contradiction|].
  cbn [map find]. intros N Hu. apply NoDup_cons_iff in N as [Nv Nrest].
  destruct Hu as [->|Hu]; [now rewrite String.eqb_refl|].
  destruct (String.eqb_spec (name v) (name u)) as [E|_]; [|now apply IH].
  exfalso. apply Nv. rewrite E. now apply in_map.
Qed.

(** X1. When the requests are served one after the other, starting from
    the empty collection, no two stored users have the same name, no two
    have the same [_id], and no name is empty; so a stored user is the one
    its name finds and the one its id finds. *)
Theorem users_are_distinct_by_name_and_id {host : Host} (db : DB) :
  reachable db ->
  NoDup (map name db)
  /\ NoDup (map _id db)
  /\ (forall u, In u db ->
                name u <> ""
                /\ findOne (Some (name u)) db = Some u
                /\ findById (_id u) db = Some u).
Proof.
  intros R. destruct (reachable_store_ok db R) as [N I _].
  pose proof (reachable_names_given db R) as G. rewrite Forall_forall in G.
  split; [exact N|]. split; [exact I|]. intros u Hu. repeat split.
  - now apply G.
  - now apply findOne_of_In.
  - now apply findById_of_In.
Qed.

(** The store of the examples. *)
Lemma users_are_distinct_by_name_and_id_witness :
  NoDup (map name annStore)
  /\ NoDup (map _id annStore)
  /\ (forall u, In u annStore ->
                name u <> ""
                /\ findOne (Some (name u)) annStore = Some u
                /\ findById (_id u) annStore = Some u).
Proof.
  apply (@users_are_distinct_by_name_and_id utc annStore).
  exists threeExercises. reflexivity.
Defined.

Lemma extends_refl (u : User) : extends u u.
Proof.
  repeat split. exists []. rewrite app_nil_r. cbn. split; [reflexivity|lia].
Qed.

Lemma extends_trans (u v w : User) : extends u v -> extends v w -> extends u w.
Proof.
  intros (I1 & N1 & m1 & E1 & C1) (I2 & N2 & m2 & E2 & C2).
  repeat split; try congruence. exists (m1 ++ m2).
  rewrite E2, E1, C2, C1, <- app_assoc, length_app. split; [reflexivity|lia].
Qed.

Lemma push_inc_extends (exercise : Exercise) (u : User) :
  extends u (push_inc exercise u).
Proof.
  repeat split. exists [exercise]. cbn. split; reflexivity.
Qed.

(** What the exercise form does to the lookup of every id. *)
Lemma addExerciseHandler_lookup {host : Host} generated now id body (db : DB) :
  let db' := fst (addExerciseHandler generated now id body db) in
  let exercise := exerciseOf (mkCall generated now body) in
  findById id db' = option_map (push_inc exercise) (findById id db)
  /\ (forall other, other <> id -> findById other db' = findById other db)
  /\ map _id db' = map _id db
  /\ map name db' = map name db.
Proof.
  cbv zeta. rewrite addExerciseHandler_store.
  change (new_Exercise generated (body_description body) (body_duration body)
            (dateOr (body_date body) (Some now)))
    with (exerciseOf (mkCall generated now body)).
  set (exercise := exerciseOf (mkCall generated now body)).
  split; [|split; [|split]].
  - destruct (findById id db) as [u|] eqn:F.
    + destruct (findByIdAndUpdate_found id (push_inc exercise) db u
                  (fun v => eq_refl) F) as (db1 & U & F' & _).
      now rewrite U.
    + now rewrite (findByIdAndUpdate_missing _ _ _ F).
  - intros other Ho. destruct (findById id db) as [u|] eqn:F.
    + destruct (findByIdAndUpdate_found id (push_inc exercise) db u
                  (fun v => eq_refl) F) as (db1 & U & _ & _ & O).
      rewrite U. now apply O.
    + now rewrite (findByIdAndUpdate_missing _ _ _ F).
  - now apply findByIdAndUpdate_map.
  - now apply findByIdAndUpdate_map.
Qed.

Lemma app_extends {host : Host} (req : Request) (db : DB) id (u : User) :
  findById id db = Some u ->
  exists u', findById id (fst (app req db)) = Some u' /\ extends u u'.
Proof.
  intros F. destruct req as [g username|g now id' body|id' query|];
    cbn [app]; try (exists u; split; [exact F | apply extends_refl]).
  - destruct (createUserHandler_effect g username db)
      as [[E _]|(n & _ & _ & _ & _ & E)];
      destruct (createUserHandler g username db) as [db' o];
      cbn [fst] in *; exists u; (split; [|apply extends_refl]).
    + now rewrite E.
    + injection E as -> _. now apply find_app_found.
  - destruct (addExerciseHandler_lookup g now id' body db) as (L & O & _).
    destruct (addExerciseHandler g now id' body db) as [db' o].
    cbn [fst] in *. destruct (String.eqb_spec id id') as [<-|Hne].
    + rewrite L, F. eexists. split; [reflexivity|]. apply push_inc_extends.
    + exists u. split; [|apply extends_refl]. now rewrite O.
Qed.

Lemma run_extends {host : Host} (reqs : list Request) (db : DB) id (u : User) :
  findById id db = Some u ->
  exists u', findById id (run reqs db) = Some u' /\ extends u u'.
Proof.
  revert db u. induction reqs as [|req rest IH]; intros db u F.
  - exists u. split; [exact F|]. apply extends_refl.
  - cbn [run]. destruct (app_extends req db id u F) as (v & Fv & Ev).
    destruct (IH _ _ Fv) as (w & Fw & Ew).
    exists w. split; [exact Fw|]. exact (extends_trans u v w Ev Ew).
Qed.

(** X2. The history of a user is append-only. Whatever requests are served
    after a user is stored, its id still finds a user with the same [_id]
    and name, whose exercises are those it had, in their order, followed by
    the ones added since, and whose count has grown by their number: no
    request removes or renames a user, nor removes, reorders or replaces an
    exercise. *)
Theorem user_history_is_append_only {host : Host} (reqs : list Request)
  (db : DB) id (u : User) :
  findById id db = Some u ->
  exists u',
    findById id (run reqs db) = Some u'
    /\ _id u' = _id u
    /\ name u' = name u
    /\ exists more,
        exercises u' = exercises u ++ more
        /\ count u' = count u + Z.of_nat (List.length more).
Proof. apply run_extends. Qed.

(** ["ann"] after her first exercise, and what follows: two more exercises
    of hers, a sign-up and two reads. *)
Lemma user_history_is_append_only_witness :
  exists u',
    findById "u1"
      (@run utc [POST_exercises "e2" 1717243200000 "u1"
                   (mkBody (Some "swim") (Some 45) (Some "2024-01-15"));
                 POST_users "u2" (Some "bob");
                 GET_logs "u1" noQuery;
                 POST_exercises "e3" 1717243200000 "u1"
                   (mkBody (Some "row") (Some 20) (Some "2024-02-01"));
                 GET_users]
         [mkUser "u1" "ann" 1
            [mkExercise "e1" (Some "run") (Some 30) (Some 1704067200000)]])
    = Some u'
    /\ _id u' = "u1"
    /\ name u' = "ann"
    /\ exists more,
        exercises u'
        = [mkExercise "e1" (Some "run") (Some 30) (Some 1704067200000)] ++ more
        /\ count u' = 1 + Z.of_nat (List.length more).
Proof.
  exact (@user_history_is_append_only utc _
           [mkUser "u1" "ann" 1
              [mkExercise "e1" (Some "run") (Some 30) (Some 1704067200000)]]
           "u1" _ eq_refl).
Defined.

Lemma userSummary_same (db1 db2 : DB) :
  map _id db1 = map _id db2 ->
  map name db1 = map name db2 ->
  map userSummary db1 = map userSummary db2.
Proof.
  revert db2. induction db1 as [|v rest IH]; intros [|w db2] I N;
    try discriminate; [reflexivity|].
  cbn [map] in *. injection I as I1 I2. injection N as N1 N2.
  unfold userSummary at 1 3. now rewrite I1, N1, (IH db2 I2 N2).
Qed.

(** X5. A call of the exercise form touches one user at most: every other
    id finds what it found before, the users keep their order, ids and
    names, so the list of all users is answered as before the call. *)
Theorem exercise_form_leaves_other_users {host : Host} generated now id body
  (db : DB) :
  let db' := fst (addExerciseHandler generated now id body db) in
  (forall other, other <> id -> findById other db' = findById other db)
  /\ List.length db' = List.length db
  /\ getAllUsersHandlers db' = getAllUsersHandlers db.
Proof.
  cbv zeta.
  destruct (addExerciseHandler_lookup generated now id body db)
    as (_ & O & I & N).
  split; [exact O|]. split.
  - rewrite <- (length_map _id), I. apply length_map.
  - unfold getAllUsersHandlers, find_all. do 2 f_equal.
    now apply userSummary_same.
Qed.

(** One call for ["bob"], with ["ann"] stored before him. *)
Lemma exercise_form_leaves_other_users_witness :
  let db := [ann; mkUser "u2" "bob" 0 []] in
  let db' := fst (@addExerciseHandler utc "e9" 1717243200000 "u2"
                    (mkBody (Some "walk") (Some 60) None) db) in
  findById "u1" db' = Some ann
  /\ List.length db' = 2%nat
  /\ getAllUsersHandlers db' = getAllUsersHandlers db.
Proof.
  cbv zeta.
  destruct (@exercise_form_leaves_other_users utc "e9" 1717243200000 "u2"
              (mkBody (Some "walk") (Some 60) None)
              [ann; mkUser "u2" "bob" 0 []]) as (O & L & A).
  split; [|split; [exact L | exact A]].
  rewrite (O "u1"); [reflexivity | discriminate].
Defined.

(** A sign-up under a taken name, and one under a new name. *)
Lemma signup_adds_one_user_or_nothing_witness :
  fst (createUserHandler "u2" (Some "ann") [ann]) = [ann]
  /\ fst (createUserHandler "u2" (Some "bob") [ann])
     = [ann; mkUser "u2" "bob" 0 []].
Proof.
  split.
  - destruct (signup_adds_one_user_or_nothing "u2" (Some "ann") [ann])
      as [[E _]|(n & _ & _ & _ & _ & _ & S)]; [exact E|].
    exfalso. vm_compute in S. discriminate S.
  - destruct (signup_adds_one_user_or_nothing "u2" (Some "bob") [ann])
      as [[_ S]|(n & [= <-] & _ & _ & _ & E & _)]; [|exact E].
    exfalso. apply S. vm_compute. reflexivity.
Defined.

(** X3. A sign-up without a username, or with an empty one, stores nothing:
    no stored user has such a name, [save] rejects the new document because
    [name] is required, and the handler forwards that validation error, the
    one the error middleware answers with 400 and the message of the
    failure. *)
Theorem signup_without_name_stores_nothing {host : Host} generated username
  (db : DB) :
  reachable db ->
  username = None \/ username = Some "" ->
  createUserHandler generated username db = (db, Next (requiredError "name"))
  /\ errorMiddleware (requiredError "name")
     = Sent (mkResponse 400 text_plain
               (BText (Some "Path `name` is required."))).
Proof.
  intros R U. split; [|reflexivity].
  unfold createUserHandler. destruct U as [->| ->]; [reflexivity|].
  assert (F : findOne (Some "") db = None).
  { cbn [findOne]. destruct (find _ db) as [u|] eqn:F; [|reflexivity].
    apply find_some in F as [Hu E]. apply String.eqb_eq in E.
    pose proof (reachable_names_given db R) as G.
    rewrite Forall_forall in G. now apply G in Hu. }
  now rewrite F.
Qed.

(** An empty username on the store of the examples. *)
Lemma signup_without_name_stores_nothing_witness :
  createUserHandler "u2" (Some "") annStore
  = (annStore, Next (requiredError "name")).
Proof.
  apply (@signup_without_name_stores_nothing utc "u2" (Some "") annStore).
  - exists threeExercises. reflexivity.
  - right. reflexivity.
Defined.

(** X15. A user who has just signed up can be used at once: after a sign-up
    answered 201, the new id finds the new user, the log request for it is
    answered 200 with the count 0 and no log, a call of the exercise form
    for it is answered 201, and the list of all users is the list of
    before followed by the new user. *)
Theorem new_user_is_stored_last_and_found {host : Host} generated n (db : DB) :
  n <> "" ->
  (forall u, In u db -> name u <> n) ->
  (forall u, In u db -> _id u <> generated) ->
  let db' := fst (createUserHandler generated (Some n) db) in
  findById generated db' = Some (mkUser generated n 0 [])
  /\ (forall query,
         getUserHandler generated query db'
         = ok_json 200 (JObj [("_id", JStr generated); ("username", JStr n);
                              ("count", JNum 0)]))
  /\ (forall fresh now desc dur,
         succeeded 201
           (snd (addExerciseHandler fresh now generated
                   (mkBody (Some desc) (Some dur) None) db')))
  /\ getAllUsersHandlers db'
     = ok_json 200 (JArr (map userSummary db
                          ++ [JObj [("_id", JStr generated);
                                    ("username", JStr n)]])).
Proof.
  intros Hn Hname Hid. cbv zeta.
  rewrite (createUserHandler_new generated n db Hn Hname Hid). cbn [fst].
  assert (F : findById generated (db ++ [mkUser generated n 0 []])
              = Some (mkUser generated n 0 [])).
  { unfold findById. apply find_app_last.
    - intros y Hy. apply String.eqb_neq. now apply Hid.
    - apply String.eqb_refl. }
  split; [exact F|]. split; [|split].
  - intros query. unfold getUserHandler. now rewrite F.
  - intros fresh now desc dur. unfold addExerciseHandler.
    destruct (findByIdAndUpdate_found generated
                (push_inc (new_Exercise fresh (Some desc) (Some dur) (Some now)))
                _ _ (fun v => eq_refl) F) as (db1 & U & _).
    cbn [body_description body_duration body_date dateOr].
    rewrite U. reflexivity.
  - unfold getAllUsersHandlers, find_all, status_json, ok_json.
    do 3 f_equal. rewrite toJSON_users, map_app. reflexivity.
Qed.

(** ["bob"] signs up after ["ann"]. *)
Lemma new_user_is_stored_last_and_found_witness :
  findById "u2" (fst (createUserHandler "u2" (Some "bob") [ann]))
  = Some (mkUser "u2" "bob" 0 [])
  /\ getAllUsersHandlers (fst (createUserHandler "u2" (Some "bob") [ann]))
     = ok_json 200 (JArr [JObj [("_id", JStr "u1"); ("username", JStr "ann")];
                          JObj [("_id", JStr "u2"); ("username", JStr "bob")]]).
Proof.
  assert (Hname : forall u, In u [ann] -> name u <> "bob")
    by (intros u [<-|[]]; discriminate).
  assert (Hid : forall u, In u [ann] -> _id u <> "u2")
    by (intros u [<-|[]]; discriminate).
  assert (Hbob : "bob" <> "") by discriminate.
  destruct (@new_user_is_stored_last_and_found utc "u2" "bob" [ann]
              Hbob Hname Hid) as (F & _ & _ & A).
  split; [exact F | exact A].
Defined.

(** X14. The endpoints agree on the count of a user. In a store where ids
    are distinct and the count of each user is the number of its exercises,
    which every store operation of the handlers keeps, the sign-up under a
    stored name reports an [_id] and a count, and every log response for
    that [_id] carries the same count. *)
Theorem endpoints_agree_on_count {host : Host} (db : DB) (u : User) n
  generated (query : LogQuery) (r : Response) :
  NoDup (map _id db) ->
  Forall count_matches db ->
  findOne (Some n) db = Some u ->
  getUserHandler (_id u) query db = Sent r ->
  exists logDoc userDoc,
    body r = BJson logDoc
    /\ snd (createUserHandler generated (Some n) db) = ok_json 200 userDoc
    /\ getProp "_id" userDoc = Some (JStr (_id u))
    /\ getProp "count" userDoc = Some (JNum (count u))
    /\ getProp "count" logDoc = Some (JNum (count u)).
Proof.
  intros I C Fo E.
  assert (Hu : In u db) by (cbn [findOne] in Fo; now apply find_some in Fo).
  pose proof (findById_of_In db u I Hu) as F.
  destruct (getUserHandler_sent _ query db u r F E) as (log & ->).
  unfold createUserHandler. rewrite Fo. cbn [snd].
  do 2 eexists. split; [reflexivity|]. split; [reflexivity|].
  split; [reflexivity|]. split; [reflexivity|].
  rewrite count_of_logDocument. rewrite Forall_forall in C.
  now rewrite (C u Hu).
Qed.

(** ["ann"], whose count is 3, with a log cut to one entry. *)
Lemma endpoints_agree_on_count_witness :
  exists logDoc userDoc,
    BJson (logDocument ann
             (Some [mkLogEntry (Some "run") (Some 30) "Mon Jan 01 2024"]))
    = BJson logDoc
    /\ snd (createUserHandler "u2" (Some "ann") [ann]) = ok_json 200 userDoc
    /\ getProp "_id" userDoc = Some (JStr "u1")
    /\ getProp "count" userDoc = Some (JNum 3)
    /\ getProp "count" logDoc = Some (JNum 3).
Proof.
  apply (@endpoints_agree_on_count utc [ann] ann "ann" "u2"
           (mkQuery None None (Some "1"))
           (mkResponse 200 application_json
              (BJson (logDocument ann
                        (Some [mkLogEntry (Some "run") (Some 30)
                                          "Mon Jan 01 2024"]))))).
  - repeat constructor. intros [].
  - repeat constructor.
  - reflexivity.
  - vm_compute. reflexivity.
Defined.

(* ================================================================= *)
(** ** Further properties: the log *)

Lemma subseq_refl {A} (l : list A) : subseq l l.
Proof. induction l; [constructor | now apply subseq_keep]. Qed.

Lemma subseq_nil_l {A} (l : list A) : subseq [] l.
Proof. induction l; constructor; assumption. Qed.

Lemma subseq_filter {A} (p : A -> bool) (l : list A) : subseq (filter p l) l.
Proof.
  induction l as [|x l IH]; cbn [filter]; [constructor|].
  destruct (p x); [apply subseq_keep | apply subseq_skip]; exact IH.
Qed.

Lemma subseq_firstn {A} (k : nat) (l : list A) : subseq (firstn k l) l.
Proof.
  revert k. induction l as [|x l IH]; intros [|k]; cbn [firstn].
  - constructor.
  - constructor.
  - apply subseq_nil_l.
  - apply subseq_keep, IH.
Qed.

Lemma subseq_trans {A} (l1 l2 l3 : list A) :
  subseq l1 l2 -> subseq l2 l3 -> subseq l1 l3.
Proof.
  intros H12 H23. revert l1 H12.
  induction H23 as [|x l2 l3 _ IH|x l2 l3 _ IH]; intros l1 H12.
  - exact H12.
  - constructor. now apply IH.
  - inversion H12; subst; constructor; now apply IH.
Qed.

Lemma subseq_length {A} (l1 l2 : list A) :
  subseq l1 l2 -> (List.length l1 <= List.length l2)%nat.
Proof. induction 1; cbn [List.length]; lia. Qed.

Lemma formatLog_Some_length {host : Host} (exs : list Exercise)
  (mapped : list LogEntry) :
  formatLog exs = Some mapped -> List.length mapped = List.length exs.
Proof.
  revert mapped. induction exs as [|ex rest IH]; intros mapped.
  - intros [= <-]. reflexivity.
  - cbn [formatLog]. destruct (date ex); [|discriminate].
    destruct (formatLog rest) as [entries|]; [|discriminate].
    intros [= <-]. cbn [List.length]. now rewrite (IH entries).
Qed.

Lemma formatLog_app {host : Host} (exs : list Exercise) (ex : Exercise) :
  formatLog (exs ++ [ex])
  = match formatLog exs, date ex with
    | Some entries, Some d =>
        Some (entries ++ [mkLogEntry (description ex) (duration ex)
                                     (toDateString d)])
    | _, _ => None
    end.
Proof.
  induction exs as [|e rest IH]; cbn [List.app formatLog].
  - now destruct (date ex).
  - destruct (date e); [|reflexivity]. rewrite IH.
    destruct (formatLog rest); [|reflexivity]. now destruct (date ex).
Qed.

(** What [applyLimit] returns is a prefix of the log, and has at most
    [limit] entries when the limit is positive. *)
Lemma applyLimit_inl (limit : option Number) (log out : list LogEntry) :
  applyLimit limit log = inl out ->
  subseq out log
  /\ (forall n, limit = Some (Num n) -> 0 < n ->
                Z.of_nat (List.length out) <= n).
Proof.
  unfold applyLimit. destruct limit as [[|n]|]; cbn [truthyNum numLt andb].
  - intros [= <-]. split; [apply subseq_refl | discriminate].
  - destruct (Z.eqb_spec n 0) as [->|Hz]; cbn [negb andb].
    + intros [= <-]. split; [apply subseq_refl|]. intros m [= <-]. lia.
    + destruct (Z.ltb_spec n (Z.of_nat (List.length log))) as [Hlt|Hge].
      * cbn [setLength]. destruct (Z.ltb_spec n 0); [discriminate|].
        intros [= <-]. split; [apply subseq_firstn|].
        intros m [= <-] _. rewrite length_firstn. lia.
      * intros [= <-]. split; [apply subseq_refl|]. intros m [= <-] _. lia.
  - intros [= <-]. split; [apply subseq_refl | discriminate].
Qed.

(** X8. A log response never invents, repeats or reorders entries: the log
    it carries is the mapped exercises of the user with some entries left
    out, so it has no more entries than the user has exercises; and when
    the limit reads as a positive number it has no more entries than the
    limit. A response without a log is sent only for a user without
    exercises. *)
Theorem log_is_an_ordered_selection {host : Host} id (query : LogQuery)
  (db : DB) (u : User) (r : Response) :
  findById id db = Some u ->
  getUserHandler id query db = Sent r ->
  exists log,
    r = mkResponse 200 application_json (BJson (logDocument u log))
    /\ match log with
       | None => exercises u = []
       | Some entries =>
           exists mapped,
             formatLog (exercises u) = Some mapped
             /\ subseq entries mapped
             /\ (List.length entries <= List.length (exercises u))%nat
             /\ (forall n, intOrNull (query_limit query) = Some (Num n) ->
                           0 < n -> Z.of_nat (List.length entries) <= n)
       end.
Proof.
  intros F. unfold getUserHandler. rewrite F.
  destruct (exercises u) as [|ex rest] eqn:Ex.
  - intros [= <-]. exists None. split; [|reflexivity].
    unfold logDocument. now rewrite Ex.
  - destruct (formatLog (ex :: rest)) as [log0|] eqn:Fm; [|discriminate].
    destruct (applyLimit _ _) as [log|err] eqn:A; [|discriminate].
    intros [= <-]. exists (Some log). split.
    + unfold logDocument. rewrite Ex, <- toJSON_entries. reflexivity.
    + exists log0. destruct (applyLimit_inl _ _ _ A) as (S1 & L).
      assert (S2 : subseq log log0).
      { eapply subseq_trans; [exact S1|].
        destruct (dateOrNull (query_from query)),
                 (dateOrNull (query_to query));
          try apply subseq_filter. apply subseq_refl. }
      repeat split; try assumption.
      rewrite <- (formatLog_Some_length _ _ Fm). now apply subseq_length.
Qed.

(** ["ann"]'s log from 2024-01-10 on, two entries at most. *)
Lemma log_is_an_ordered_selection_witness :
  exists log,
    mkResponse 200 application_json
      (BJson (logDocument ann (Some (skipn 1 annLog))))
    = mkResponse 200 application_json (BJson (logDocument ann log))
    /\ match log with
       | None => exercises ann = []
       | Some entries =>
           exists mapped,
             @formatLog utc (exercises ann) = Some mapped
             /\ subseq entries mapped
             /\ (List.length entries <= List.length (exercises ann))%nat
             /\ (forall n, intOrNull (Some "2") = Some (Num n) ->
                           0 < n -> Z.of_nat (List.length entries) <= n)
       end.
Proof.
  apply (@log_is_an_ordered_selection utc "u1"
           (mkQuery (Some "2024-01-10") None (Some "2")) [ann] ann).
  - reflexivity.
  - vm_compute. reflexivity.
Defined.

(** The log request without parameters, on a user with exercises. *)
Lemma getUserHandler_noQuery {host : Host} id (db : DB) (u : User)
  (mapped : list LogEntry) :
  findById id db = Some u ->
  exercises u <> [] ->
  formatLog (exercises u) = Some mapped ->
  getUserHandler id noQuery db = ok_json 200 (logDocument u (Some mapped)).
Proof.
  intros F Hne Fm. unfold getUserHandler, noQuery.
  cbn [query_from query_to query_limit dateOrNull intOrNull].
  rewrite F. destruct (exercises u) as [|ex rest] eqn:Ex; [contradiction|].
  rewrite Fm. unfold applyLimit. cbn [truthyNum andb].
  unfold logDocument. rewrite Ex, <- toJSON_entries. reflexivity.
Qed.

(** X6. What the exercise form stores is what the log then shows. For a
    stored user whose exercises all have a date, and a body whose date is
    left out or read by [new Date], the log requested without parameters
    after the call is the log of before followed by one entry, with the
    description and the duration of the body and the day string that the
    201 response of the call carries as [date]; the count is one more. *)
Theorem added_exercise_is_last_in_log {host : Host} generated now id
  (body : ExerciseBody) (db : DB) (u : User) (before : list LogEntry) t :
  findById id db = Some u ->
  formatLog (exercises u) = Some before ->
  dateOr (body_date body) (Some now) = Some t ->
  let db' := fst (addExerciseHandler generated now id body db) in
  let o := snd (addExerciseHandler generated now id body db) in
  exists u' posted,
    findById id db' = Some u'
    /\ o = ok_json 201 posted
    /\ getProp "date" posted = Some (JStr (toDateString t))
    /\ getUserHandler id noQuery db'
       = ok_json 200
           (logDocument u'
              (Some (before
                     ++ [mkLogEntry (body_description body)
                                    (body_duration body) (toDateString t)])))
    /\ List.length (exercises u') = S (List.length (exercises u)).
Proof.
  intros F Fm Ht. cbv zeta.
  destruct (addExerciseHandler_lookup generated now id body db) as (L & _).
  rewrite F in L. cbn [option_map] in L.
  set (exercise := exerciseOf (mkCall generated now body)) in *.
  assert (D : date exercise = Some t) by exact Ht.
  exists (push_inc exercise u).
  assert (O : exists posted,
             snd (addExerciseHandler generated now id body db)
             = ok_json 201 posted
             /\ getProp "date" posted = Some (JStr (toDateString t))).
  { unfold addExerciseHandler.
    destruct (findByIdAndUpdate_found id (push_inc exercise) db u
                (fun v => eq_refl) F) as (db1 & U & _).
    change (new_Exercise generated (body_description body)
              (body_duration body) (dateOr (body_date body) (Some now)))
      with exercise.
    rewrite U, D. cbn [snd]. eexists. split; [reflexivity|].
    unfold exercise, exerciseOf, new_Exercise.
    cbn [description duration call_body].
    destruct (body_description body), (body_duration body); reflexivity. }
  destruct O as (posted & O & P). exists posted.
  split; [exact L|]. split; [exact O|]. split; [exact P|]. split.
  - apply getUserHandler_noQuery; [exact L| |].
    + cbn [push_inc exercises]. now destruct (exercises u).
    + cbn [push_inc exercises]. rewrite formatLog_app, Fm, D. reflexivity.
  - cbn [push_inc exercises]. rewrite length_app. cbn [List.length]. lia.
Qed.

(** A walk logged for ["ann"] with no date, at noon UTC on 2024-06-01. *)
Lemma added_exercise_is_last_in_log_witness :
  exists u' posted,
    findById "u1"
      (fst (@addExerciseHandler utc "e4" 1717243200000 "u1"
              (mkBody (Some "walk") (Some 60) None) [ann])) = Some u'
    /\ snd (@addExerciseHandler utc "e4" 1717243200000 "u1"
              (mkBody (Some "walk") (Some 60) None) [ann])
       = ok_json 201 posted
    /\ getProp "date" posted = Some (JStr "Sat Jun 01 2024")
    /\ @getUserHandler utc "u1" noQuery
         (fst (@addExerciseHandler utc "e4" 1717243200000 "u1"
                 (mkBody (Some "walk") (Some 60) None) [ann]))
       = ok_json 200
           (logDocument u'
              (Some (annLog
                     ++ [mkLogEntry (Some "walk") (Some 60)
                                    "Sat Jun 01 2024"])))
    /\ List.length (exercises u') = 4%nat.
Proof.
  exact (@added_exercise_is_last_in_log utc "e4" 1717243200000 "u1"
           (mkBody (Some "walk") (Some 60) None) [ann] ann annLog
           1717243200000 eq_refl eq_refl eq_refl).
Defined.

Lemma inRange_invalid_from {host : Host} (to : option (option Z))
  (e : LogEntry) :
  inRange (Some None) to e = inRange None to e.
Proof. unfold inRange. now destruct (Date_new (log_date e)). Qed.

Lemma inRange_invalid_to {host : Host} (from : option (option Z))
  (e : LogEntry) :
  inRange from (Some None) e = inRange from None e.
Proof.
  unfold inRange. cbn [dateLt].
  now destruct (match from with Some f => _ | None => _ end).
Qed.

Lemma inRange_unbounded {host : Host} (log : list LogEntry) :
  filter (inRange None None) log = log.
Proof. apply filter_all, Forall_forall. reflexivity. Qed.

(** X7. A bound that cannot restrict does not restrict: a [from] or a [to]
    that is empty, or that [new Date] does not read as a date, gives the
    answer the request gives without that parameter, whatever the other
    parameters are; and an empty [limit] is no limit. *)
Theorem unreadable_bound_is_no_bound {host : Host} id (db : DB)
  (from to limit : option string) (s : string) :
  s = "" \/ Date_new s = None ->
  getUserHandler id (mkQuery (Some s) to limit) db
  = getUserHandler id (mkQuery None to limit) db
  /\ getUserHandler id (mkQuery from (Some s) limit) db
     = getUserHandler id (mkQuery from None limit) db
  /\ getUserHandler id (mkQuery from to (Some "")) db
     = getUserHandler id (mkQuery from to None) db.
Proof.
  intros Hs.
  assert (B : dateOrNull (Some s) = None \/ dateOrNull (Some s) = Some None).
  { destruct Hs as [->|Hs]; [now left|].
    destruct s as [|c s']; [now left|]. right. cbn [dateOrNull].
    now rewrite Hs. }
  split; [|split]; [| |reflexivity]; unfold getUserHandler;
    cbn [query_from query_to query_limit];
    destruct (findById id db) as [u|]; try reflexivity;
    destruct (exercises u) as [|ex rest]; try reflexivity;
    destruct (formatLog (ex :: rest)) as [log0|]; try reflexivity;
    destruct B as [-> | ->]; try reflexivity.
  - cbn [dateOrNull].
    replace (filter (inRange (Some None) (dateOrNull to)) log0)
      with (filter (inRange None (dateOrNull to)) log0)
      by (apply filter_ext; intros e; now rewrite inRange_invalid_from).
    destruct (dateOrNull to); [reflexivity|].
    now rewrite inRange_unbounded.
  - cbn [dateOrNull].
    replace (filter (inRange (dateOrNull from) (Some None)) log0)
      with (filter (inRange (dateOrNull from) None) log0)
      by (apply filter_ext; intros e; now rewrite inRange_invalid_to).
    destruct (dateOrNull from); [reflexivity|].
    now rewrite inRange_unbounded.
Qed.

(** ["ann"]'s log with a [from] that is no date. *)
Lemma unreadable_bound_is_no_bound_witness :
  @getUserHandler utc "u1" (mkQuery (Some "someday") (Some "2024-01-31") None)
     [ann]
  = @getUserHandler utc "u1" (mkQuery None (Some "2024-01-31") None) [ann].
Proof.
  exact (proj1 (@unreadable_bound_is_no_bound utc "u1" [ann]
                  None (Some "2024-01-31") None "someday"
                  (or_intror eq_refl))).
Defined.

(** X9. A negative limit is an internal error, not an empty or a full log:
    for a user with exercises, all of them with a date, a [limit] that
    reads as a negative number makes [log.length = limit] throw, whatever
    the date range keeps; the error is forwarded and the application
    answers 500. *)
Theorem negative_limit_is_an_error {host : Host} id (query : LogQuery)
  (db : DB) (u : User) (mapped : list LogEntry) s n :
  findById id db = Some u ->
  exercises u <> [] ->
  formatLog (exercises u) = Some mapped ->
  query_limit query = Some s ->
  parseInt s = Num n ->
  n < 0 ->
  getUserHandler id query db = Next (RangeError "Invalid array length")
  /\ statusCode (snd (app (GET_logs id query) db)) = 500.
Proof.
  intros F Hne Fm Hs Hp Hn.
  assert (E : getUserHandler id query db
              = Next (RangeError "Invalid array length")).
  { unfold getUserHandler. rewrite F, Hs.
    destruct (exercises u) as [|ex rest]; [contradiction|]. rewrite Fm.
    destruct s as [|c s']; [discriminate Hp|]. cbn [intOrNull]. rewrite Hp.
    unfold applyLimit. cbn [truthyNum numLt setLength].
    destruct (Z.eqb_spec n 0); [lia|].
    destruct (Z.ltb_spec n (Z.of_nat (List.length
      match dateOrNull (query_from query), dateOrNull (query_to query) with
      | None, None => mapped
      | _, _ => filter (inRange (dateOrNull (query_from query))
                                (dateOrNull (query_to query))) mapped
      end))); [|lia].
    cbn [negb andb]. destruct (Z.ltb_spec n 0); [reflexivity|lia]. }
  split; [exact E|]. cbn [app snd]. now rewrite E.
Qed.

(** ["ann"]'s log with [limit=-1]. *)
Lemma negative_limit_is_an_error_witness :
  @getUserHandler utc "u1" (mkQuery None None (Some "-1")) [ann]
  = Next (RangeError "Invalid array length")
  /\ statusCode
       (snd (@app utc (GET_logs "u1" (mkQuery None None (Some "-1"))) [ann]))
     = 500.
Proof.
  apply (@negative_limit_is_an_error utc "u1" (mkQuery None None (Some "-1"))
           [ann] ann annLog "-1" (-1)); try reflexivity.
  discriminate.
Defined.

(** X10. A date range whose lower bound is after its upper bound is not an
    error: for a user with exercises, each with a date the host reads back,
    the answer is 200 with an empty log array, and the count is still the
    number of exercises. *)
Theorem inverted_range_gives_empty_log {host : Host} id (query : LogQuery)
  (db : DB) (u : User) f t :
  findById id db = Some u ->
  exercises u <> [] ->
  Forall dated (exercises u) ->
  (forall n, intOrNull (query_limit query) = Some (Num n) -> 0 <= n) ->
  boundOf (query_from query) = Some f ->
  boundOf (query_to query) = Some t ->
  t < f ->
  getUserHandler id query db = ok_json 200 (logDocument u (Some []))
  /\ getProp "count" (logDocument u (Some []))
     = Some (JNum (Z.of_nat (List.length (exercises u))))
  /\ getProp "log" (logDocument u (Some [])) = Some (JArr []).
Proof.
  intros F Hne D Hl Hf Ht Hlt.
  destruct (getUserHandler_spec_log id query db u F Hne D Hl)
    as (mapped & _ & E).
  rewrite E, Hf, Ht.
  assert (K : filter (entryWithin (Some f) (Some t)) mapped = []).
  { clear - Hlt. induction mapped as [|e rest IH]; [reflexivity|].
    cbn [filter]. rewrite IH. unfold entryWithin, withinBounds.
    destruct (Date_new (log_date e)) as [d|]; [|reflexivity].
    destruct (Z.leb_spec f d), (Z.leb_spec d t); try reflexivity. lia. }
  unfold spec_log. rewrite K.
  split; [|split; reflexivity].
  destruct (limitOf (query_limit query)) as [n|]; [|reflexivity].
  rewrite firstn_nil. now destruct (n <? _).
Qed.

(** ["ann"]'s log from 2024-02-01 to 2024-01-01. *)
Lemma inverted_range_gives_empty_log_witness :
  @getUserHandler utc "u1"
    (mkQuery (Some "2024-02-01") (Some "2024-01-01") None) [ann]
  = ok_json 200 (logDocument ann (Some [])).
Proof.
  apply (@inverted_range_gives_empty_log utc "u1"
           (mkQuery (Some "2024-02-01") (Some "2024-01-01") None) [ann] ann
           1706745600000 1704067200000).
  - reflexivity.
  - discriminate.
  - exact ann_dated.
  - intros n. discriminate.
  - reflexivity.
  - reflexivity.
  - reflexivity.
Defined.

Lemma formatLog_undated {host : Host} (exs : list Exercise) (ex : Exercise) :
  In ex exs -> date ex = None -> formatLog exs = None.
Proof.
  intros Hin Hd. induction exs as [|e rest IH]; [contradiction|].
  cbn [formatLog]. destruct Hin as [->|Hin]; [now rewrite Hd|].
  destruct (date e); [|reflexivity]. now rewrite (IH Hin).
Qed.

(** X16. A date the server cannot read is not refused. For a stored user
    and a body whose date is not empty and is not read by [new Date], the
    call stores an exercise without a date and counts it, then fails on
    [exercise.date.toDateString()]; from then on, whatever requests are
    served, every log request for that user fails on the same property of
    the stored exercise. *)
Theorem unreadable_date_blocks_the_log {host : Host} generated now id
  (body : ExerciseBody) (db : DB) (u : User) s :
  findById id db = Some u ->
  body_date body = Some s ->
  s <> "" ->
  Date_new s = None ->
  let db' := fst (addExerciseHandler generated now id body db) in
  let o := snd (addExerciseHandler generated now id body db) in
  findById id db'
  = Some (mkUser id (name u) (count u + 1)
            (exercises u
             ++ [mkExercise generated (body_description body)
                            (body_duration body) None]))
  /\ o = Next (TypeError "Cannot read property 'toDateString' of undefined")
  /\ (forall reqs query,
         getUserHandler id query (run reqs db')
         = Next (TypeError
                   "Cannot read property 'toDateString' of undefined")).
Proof.
  intros F Hs Hne Hd. cbv zeta.
  destruct (addExerciseHandler_lookup generated now id body db) as (L & _).
  rewrite F in L. cbn [option_map] in L.
  assert (E : exerciseOf (mkCall generated now body)
              = mkExercise generated (body_description body)
                           (body_duration body) None).
  { unfold exerciseOf, new_Exercise. cbn [call_body call_generated call_now].
    rewrite Hs. destruct s as [|c s']; [contradiction|].
    cbn [dateOr]. now rewrite Hd. }
  rewrite E in L. pose proof (findById_id _ _ _ F) as I.
  split; [|split].
  - rewrite L. unfold push_inc. now rewrite I.
  - unfold addExerciseHandler.
    change (new_Exercise generated (body_description body)
              (body_duration body) (dateOr (body_date body) (Some now)))
      with (exerciseOf (mkCall generated now body)).
    rewrite E.
    destruct (findByIdAndUpdate_found id
                (push_inc (mkExercise generated (body_description body)
                             (body_duration body) None)) db u
                (fun v => eq_refl) F) as (db1 & U & _).
    now rewrite U.
  - intros reqs query.
    destruct (run_extends reqs _ id _ L) as (v & Fv & _ & _ & more & Ev & _).
    cbn [push_inc exercises] in Ev.
    unfold getUserHandler. rewrite Fv.
    assert (Fm : formatLog (exercises v) = None).
    { apply (formatLog_undated _ (mkExercise generated (body_description body)
                                    (body_duration body) None));
        [|reflexivity].
      rewrite Ev. apply in_or_app. left. apply in_or_app. right. now left. }
    destruct (exercises v) as [|ex rest] eqn:Ex.
    + destruct (exercises u); discriminate Ev.
    + now rewrite Fm.
Qed.

(** A walk logged for ["ann"] on ["someday"], then a read of her log after
    another exercise of hers. *)
Lemma unreadable_date_blocks_the_log_witness :
  let db' := fst (@addExerciseHandler utc "e4" 1717243200000 "u1"
                    (mkBody (Some "walk") (Some 60) (Some "someday")) [ann]) in
  findById "u1" db'
  = Some (mkUser "u1" "ann" 4
            (exercises ann ++ [mkExercise "e4" (Some "walk") (Some 60) None]))
  /\ @getUserHandler utc "u1" noQuery
       (@run utc [POST_exercises "e5" 1717243200000 "u1"
                    (mkBody (Some "run") (Some 30) None)] db')
     = Next (TypeError "Cannot read property 'toDateString' of undefined").
Proof.
  cbv zeta.
  destruct (@unreadable_date_blocks_the_log utc "e4" 1717243200000 "u1"
              (mkBody (Some "walk") (Some 60) (Some "someday")) [ann] ann
              "someday" eq_refl eq_refl ltac:(discriminate) eq_refl)
    as (S & _ & G).
  split; [exact S|]. apply G.
Defined.

(** X17. The exercise form accepts a body without a description or without
    a duration: the update runs no schema validator, so for a stored user
    and a date that is left out or read by [new Date] the exercise is stored
    and counted as it is, and the answer is 201 with the document
    [{username, description, duration, _id, date}] less the properties the
    body did not give. *)
Theorem incomplete_body_is_stored {host : Host} generated now id
  (body : ExerciseBody) (db : DB) (u : User) t :
  findById id db = Some u ->
  dateOr (body_date body) (Some now) = Some t ->
  exists db',
    addExerciseHandler generated now id body db
    = (db', ok_json 201
              (JObj ([("username", JStr (name u))]
                     ++ given "description" (optStr (body_description body))
                     ++ given "duration" (optNum (body_duration body))
                     ++ [("_id", JStr id);
                         ("date", JStr (toDateString t))])))
    /\ findById id db'
       = Some (mkUser id (name u) (count u + 1)
                 (exercises u
                  ++ [mkExercise generated (body_description body)
                                 (body_duration body) (Some t)])).
Proof.
  intros F Ht.
  pose (exercise := mkExercise generated (body_description body)
                               (body_duration body) (Some t)).
  destruct (findByIdAndUpdate_found id (push_inc exercise) db u
              (fun v => eq_refl) F) as (db' & U & F' & _).
  exists db'. unfold addExerciseHandler, new_Exercise. rewrite Ht.
  fold exercise. rewrite U. cbn [date exercise].
  pose proof (findById_id _ _ _ F) as I. split.
  - unfold push_inc. cbn [name _id description duration exercise]. rewrite I.
    destruct (body_description body), (body_duration body); reflexivity.
  - rewrite F'. unfold push_inc. now rewrite I.
Qed.

(** A call for ["ann"] that gives a duration only. *)
Lemma incomplete_body_is_stored_witness :
  exists db',
    @addExerciseHandler utc "e4" 1717243200000 "u1"
      (mkBody None (Some 30) None) [ann]
    = (db', ok_json 201 (JObj [("username", JStr "ann");
                               ("duration", JNum 30);
                               ("_id", JStr "u1");
                               ("date", JStr "Sat Jun 01 2024")]))
    /\ findById "u1" db'
       = Some (mkUser "u1" "ann" 4
                 (exercises ann
                  ++ [mkExercise "e4" None (Some 30) (Some 1717243200000)])).
Proof.
  exact (@incomplete_body_is_stored utc "e4" 1717243200000 "u1"
           (mkBody None (Some 30) None) [ann] ann 1717243200000
           eq_refl eq_refl).
Defined.

(* ================================================================= *)
(** ** Further properties: the status of every answer *)

(** The errors the handlers forward carry no status. *)
Lemma createUserHandler_outcome generated username (db : DB) :
  (exists doc, snd (createUserHandler generated username db) = ok_json 200 doc)
  \/ (exists doc, snd (createUserHandler generated username db)
                  = ok_json 201 doc)
  \/ (exists err, snd (createUserHandler generated username db) = Next err
                  /\ status err = None).
Proof.
  unfold createUserHandler.
  destruct (findOne username db) as [u|]; [left; eexists; reflexivity|].
  right. unfold save, new_User. cbn [new_name new_id].
  destruct username as [[|c n]|];
    try (right; eexists; split; reflexivity).
  destruct (existsb _ db); [right|left]; eexists;
    try split; reflexivity.
Qed.

Lemma addExerciseHandler_outcome {host : Host} generated now id body (db : DB) :
  (exists doc, snd (addExerciseHandler generated now id body db)
               = ok_json 201 doc)
  \/ (exists err, snd (addExerciseHandler generated now id body db) = Next err
                  /\ status err = None).
Proof.
  unfold addExerciseHandler.
  destruct (findByIdAndUpdate _ _ db) as [db' [user|]];
    [|right; eexists; split; reflexivity].
  destruct (date _); [left | right]; eexists; try split; reflexivity.
Qed.

Lemma getUserHandler_outcome {host : Host} id query (db : DB) :
  (exists doc, getUserHandler id query db = ok_json 200 doc)
  \/ (exists err, getUserHandler id query db = Next err
                  /\ status err = None).
Proof.
  unfold getUserHandler.
  destruct (findById id db) as [u|]; [|right; eexists; split; reflexivity].
  destruct (exercises u) as [|ex rest]; [left; eexists; reflexivity|].
  destruct (formatLog _) as [log0|]; [|right; eexists; split; reflexivity].
  unfold applyLimit.
  destruct (truthyNum _ && numLt _ _); [|left; eexists; reflexivity].
  unfold setLength.
  destruct (intOrNull (query_limit query)) as [[|n]|];
    try (right; eexists; split; reflexivity);
    try (left; eexists; reflexivity).
  destruct (n <? 0); [right | left]; eexists; try split; reflexivity.
Qed.

(** X11. A request that one of the four route handlers receives, on a store
    whose operations succeed, is answered 200, 201 or 500: the list of
    users 200; a sign-up 200, 201 or 500; the exercise form 201 or 500; the
    log request 200 or 500. The errors these handlers raise themselves (a
    validation failure, a missing user, a negative limit) carry no status
    and do not reach the error middleware, which is registered before the
    routes: the handlers never answer them 400 or 404. *)
Theorem route_answers_are_200_201_or_500 {host : Host} (req : Request)
  (db : DB) :
  let code := statusCode (snd (app req db)) in
  match req with
  | POST_users _ _ => code = 200 \/ code = 201 \/ code = 500
  | POST_exercises _ _ _ _ => code = 201 \/ code = 500
  | GET_logs _ _ => code = 200 \/ code = 500
  | GET_users => code = 200
  end.
Proof.
  cbv zeta. destruct req as [g username|g now id body|id query|]; cbn [app].
  - destruct (createUserHandler_outcome g username db)
      as [(doc & E)|[(doc & E)|(err & E & S)]];
      destruct (createUserHandler g username db) as [db' o];
      cbn [snd] in *; subst o; cbn [route ok_json statusCode]; auto.
    unfold finalhandler. rewrite S. auto.
  - destruct (addExerciseHandler_outcome g now id body db)
      as [(doc & E)|(err & E & S)];
      destruct (addExerciseHandler g now id body db) as [db' o];
      cbn [snd] in *; subst o; cbn [route ok_json statusCode]; auto.
    unfold finalhandler. rewrite S. auto.
  - destruct (getUserHandler_outcome id query db)
      as [(doc & E)|(err & E & S)]; rewrite E;
      cbn [snd route ok_json statusCode]; auto.
    unfold finalhandler. rewrite S. auto.
  - reflexivity.
Qed.

(* ================================================================= *)
(** ** Further properties: two sign-ups at once *)

Lemma unused_id generated (db : DB) :
  (forall u, In u db -> _id u <> generated) ->
  existsb (fun u => String.eqb (_id u) generated) db = false.
Proof.
  intros Hid. destruct (existsb _ db) eqn:X; [|reflexivity].
  apply existsb_exists in X as (u & Hu & E). apply String.eqb_eq in E.
  now apply Hid in Hu.
Qed.

(** X18. The name is not a key of the store. [createUserHandler] is its
    lookup followed by the rest of the handler on the result; when two
    sign-ups under the same new name both make their lookup before either
    saves, both find no one, both are answered 201, and the store ends with
    two users of that name. A later sign-up under the name is answered 200
    with the first of them. *)
Theorem concurrent_signups_store_a_name_twice generated1 generated2 third n
  (db : DB) :
  n <> "" ->
  (forall u, In u db -> name u <> n) ->
  (forall u, In u db -> _id u <> generated1 /\ _id u <> generated2) ->
  generated1 <> generated2 ->
  (forall generated username (store : DB),
      createUserHandler generated username store
      = signup_resume generated username (signup_lookup username store) store)
  /\ let found1 := signup_lookup (Some n) db in
     let found2 := signup_lookup (Some n) db in
     let '(db1, o1) := signup_resume generated1 (Some n) found1 db in
     let '(db2, o2) := signup_resume generated2 (Some n) found2 db1 in
     db2 = db ++ [mkUser generated1 n 0 []; mkUser generated2 n 0 []]
     /\ succeeded 201 o1
     /\ succeeded 201 o2
     /\ ~ NoDup (map name db2)
     /\ createUserHandler third (Some n) db2
        = (db2, ok_json 200 (JObj [("_id", JStr generated1);
                                   ("username", JStr n);
                                   ("count", JNum 0)])).
Proof.
  intros Hn Hname Hid Hg. split; [reflexivity|]. cbv zeta.
  assert (F : findOne (Some n) db = None).
  { cbn [findOne]. destruct (find _ db) as [u|] eqn:F; [|reflexivity].
    apply find_some in F as [Hu E]. apply String.eqb_eq in E.
    now apply Hname in Hu. }
  unfold signup_lookup. rewrite F. unfold signup_resume, save, new_User.
  cbn [new_name new_id]. destruct n as [|c n']; [contradiction|].
  assert (X1 : existsb (fun u => String.eqb (_id u) generated1) db = false).
  { apply unused_id. intros u Hu. now apply Hid. }
  assert (X2 : existsb (fun u => String.eqb (_id u) generated2)
                 (db ++ [mkUser generated1 (String c n') 0 []]) = false).
  { apply unused_id. intros u Hu. apply in_app_or in Hu as [Hu|[<-|[]]].
    - now apply Hid.
    - cbn [_id]. exact Hg. }
  rewrite X1, X2, <- app_assoc. cbn [List.app].
  split; [reflexivity|]. split; [reflexivity|]. split; [reflexivity|]. split.
  - rewrite map_app. cbn [map name]. intros N.
    apply NoDup_app_remove_l in N. apply NoDup_cons_iff in N as [N _].
    apply N. now left.
  - unfold createUserHandler, findOne.
    rewrite (find_app_missing _ db _ F). cbn [find name].
    now rewrite String.eqb_refl.
Qed.

(** Two sign-ups of ["bob"] at once, with ["ann"] stored before. *)
Lemma concurrent_signups_store_a_name_twice_witness :
  let '(db1, o1) :=
    signup_resume "u2" (Some "bob") (signup_lookup (Some "bob") [ann]) [ann] in
  let '(db2, o2) :=
    signup_resume "u3" (Some "bob") (signup_lookup (Some "bob") [ann]) db1 in
  db2 = [ann] ++ [mkUser "u2" "bob" 0 []; mkUser "u3" "bob" 0 []]
  /\ succeeded 201 o1
  /\ succeeded 201 o2
  /\ ~ NoDup (map name db2)
  /\ createUserHandler "u4" (Some "bob") db2
     = (db2, ok_json 200 (JObj [("_id", JStr "u2");
                                ("username", JStr "bob");
                                ("count", JNum 0)])).
Proof.
  refine (proj2 (concurrent_signups_store_a_name_twice "u2" "u3" "u4" "bob"
                   [ann] _ _ _ _)).
  - discriminate.
  - intros u [<-|[]]. discriminate.
  - intros u [<-|[]]. split; discriminate.
  - discriminate.
Defined.
